(** * debian_mirror_speedtest: a shallow embedding of [MirrorSpeedTester]

    The development follows [src/debian_mirror_speedtest.py]:
    - [PyStr]   : the [str] operations the program calls;
    - [PyDict]  : insertion-ordered dictionaries ([dict.fromkeys], item
                  assignment, [items()]);
    - [Tester]  : [get_mirrors], [test_mirror_speed] and [main].

    Python [int] is [Z], [str] is [string]; Python [float] values (clock
    readings, durations and speeds) are idealised as exact rationals [Q]. *)

From Stdlib Require Import List Bool Arith ZArith QArith Lia.
From Stdlib Require Import Ascii String.
From Stdlib Require Import Permutation Sorted.
From Stdlib Require DecimalString.
Import ListNotations.

Local Close Scope Q_scope.
Local Open Scope string_scope.

(* ================================================================== *)
(** ** Python [str] operations *)
(* ================================================================== *)

Module PyStr.

(** [s.startswith(p)] *)
Fixpoint startswith (s p : string) {struct p} : bool :=
  match p with
  | EmptyString => true
  | String a p' =>
      match s with
      | EmptyString => false
      | String b s' => if Ascii.eqb a b then startswith s' p' else false
      end
  end.

(** Index of the first occurrence of [sub] in [s], scanning left to right. *)
Fixpoint find_nat (s sub : string) : option nat :=
  if startswith s sub then Some 0%nat
  else match s with
       | EmptyString => None
       | String _ s' => option_map S (find_nat s' sub)
       end.

(** [s.find(sub)]: the lowest index, or [-1]. *)
Definition find (s sub : string) : Z :=
  match find_nat s sub with
  | Some i => Z.of_nat i
  | None => (-1)%Z
  end.

(** [sub in s] *)
Definition contains (sub s : string) : bool :=
  match find_nat s sub with
  | Some _ => true
  | None => false
  end.

Fixpoint take (n : nat) (s : string) : string :=
  match n, s with
  | O, _ => EmptyString
  | S _, EmptyString => EmptyString
  | S n', String a s' => String a (take n' s')
  end.

(** [s[:n]]: a negative bound counts from the end, and is clipped at 0. *)
Definition slice_to (s : string) (n : Z) : string :=
  if (0 <=? n)%Z then take (Z.to_nat n) s
  else take (Z.to_nat (Z.of_nat (String.length s) + n)) s.

Fixpoint rev (s : string) : string :=
  match s with
  | EmptyString => EmptyString
  | String a s' => rev s' ++ String a EmptyString
  end.

(** [cut sep s]: the text before and after the first [sep] of [s]. *)
Fixpoint cut (sep : ascii) (s : string) : option (string * string) :=
  match s with
  | EmptyString => None
  | String a s' =>
      if Ascii.eqb a sep then Some (EmptyString, s')
      else match cut sep s' with
           | Some (l, r) => Some (String a l, r)
           | None => None
           end
  end.

(** [s.split(sep, maxsplit)] for a one-character separator. *)
Fixpoint split (sep : ascii) (maxsplit : nat) (s : string) : list string :=
  match maxsplit with
  | O => [s]
  | S n =>
      match cut sep s with
      | None => [s]
      | Some (l, r) => l :: split sep n r
      end
  end.

(** [s.rsplit(sep, maxsplit)]: the same scan, from the right end. *)
Definition rsplit (sep : ascii) (maxsplit : nat) (s : string) : list string :=
  List.rev (List.map rev (split sep maxsplit (rev s))).

(** Number of occurrences of a character. *)
Fixpoint count (c : ascii) (s : string) : nat :=
  match s with
  | EmptyString => 0
  | String a s' => (if Ascii.eqb a c then 1 else 0) + count c s'
  end.

(** [str(n)] for a non-negative [int]. *)
Definition of_nat (n : nat) : string :=
  DecimalString.NilEmpty.string_of_uint (Nat.to_uint n).

Fixpoint spaces (n : nat) : string :=
  match n with
  | O => EmptyString
  | S n' => String " " (spaces n')
  end.

(** [f"{s:<w}"] and [f"{s:>w}"] *)
Definition ljust (w : nat) (s : string) : string :=
  s ++ spaces (w - String.length s).

Definition rjust (w : nat) (s : string) : string :=
  spaces (w - String.length s) ++ s.

(** [c * n] for a one-character string. *)
Fixpoint repeat_char (c : ascii) (n : nat) : string :=
  match n with
  | O => EmptyString
  | S n' => String c (repeat_char c n')
  end.

(** [s.split(sep)] *)
Definition split_all (sep : ascii) (s : string) : list string :=
  split sep (String.length s) s.

(** [sub] occurs in [s] at index [i]. *)
Definition occurs_at (sub s : string) (i : nat) : Prop :=
  exists pre post, s = pre ++ sub ++ post /\ String.length pre = i.

End PyStr.

(* ================================================================== *)
(** ** Insertion-ordered dictionaries *)
(* ================================================================== *)

Module PyDict.

(** A [dict] with [str] keys: the items in insertion order, keys distinct. *)
Definition dict (V : Type) : Type := list (string * V).

(** [d[k] = v]: an existing key keeps its position, a new key goes last. *)
Fixpoint set {V : Type} (k : string) (v : V) (d : dict V) : dict V :=
  match d with
  | [] => [(k, v)]
  | (k', v') :: d' =>
      if String.eqb k' k then (k', v) :: d' else (k', v') :: set k v d'
  end.

Fixpoint get {V : Type} (d : dict V) (k : string) : option V :=
  match d with
  | [] => None
  | (k', v) :: d' => if String.eqb k' k then Some v else get d' k
  end.

(** [dict.fromkeys(l)]: every key is mapped to [None]. *)
Definition fromkeys (l : list string) : dict unit :=
  fold_left (fun d k => set k tt d) l [].

(** [list(d)] *)
Definition keys {V : Type} (d : dict V) : list string := map fst d.

(** [d.items()] *)
Definition items {V : Type} (d : dict V) : list (string * V) := d.

Definition len {V : Type} (d : dict V) : nat := List.length d.

(** [y not in ks] *)
Definition notin (ks : list string) (y : string) : bool :=
  negb (existsb (String.eqb y) ks).

End PyDict.

(* ================================================================== *)
(** ** Exceptions, and the state of one probe *)
(* ================================================================== *)

(** The result of a call that may raise.  No handler of the program looks
    at the exception it catches, so exceptions carry no payload. *)
Inductive outcome (A : Type) : Type :=
| Ret (a : A)
| Raise.
Arguments Ret {A} a.
Arguments Raise {A}.

(** What one call of [test_mirror_speed] changes: the number of readings
    it has taken of the clock, and the URLs it has requested, in order. *)
Record world : Type := mkWorld {
  ticks : nat;
  requests : list string
}.

Definition world0 : world := mkWorld 0 [].

(** State and exceptions: a raise keeps the state reached so far. *)
Definition M (A : Type) : Type := world -> outcome A * world.

Definition ret {A : Type} (a : A) : M A := fun w => (Ret a, w).

Definition raise {A : Type} : M A := fun w => (Raise, w).

Definition bind {A B : Type} (m : M A) (k : A -> M B) : M B :=
  fun w =>
    match m w with
    | (Ret a, w') => k a w'
    | (Raise, w') => (Raise, w')
    end.

(** [try: m  except: h] *)
Definition try_except {A : Type} (m : M A) (h : M A) : M A :=
  fun w =>
    match m w with
    | (Ret a, w') => (Ret a, w')
    | (Raise, w') => h w'
    end.

Definition lift {A : Type} (o : outcome A) : M A := fun w => (o, w).

Declare Scope probe_scope.
Delimit Scope probe_scope with probe.
Notation "x <- m ;; k" := (bind m (fun x => k))
  (at level 100, m at next level, right associativity) : probe_scope.
Notation "m ;;; k" := (bind m (fun _ => k))
  (at level 100, right associativity) : probe_scope.

(* ================================================================== *)
(** ** The collaborators: HTTP responses and the parsed listing *)
(* ================================================================== *)

(** A [requests.Response]: the status line, and what the body gives. *)
Record response (B : Type) : Type := mkResponse {
  status_code : Z;
  content : B
}.
Arguments mkResponse {B} _ _.
Arguments status_code {B} _.
Arguments content {B} _.

(** [response.raise_for_status()]: [HTTPError] for the 4xx and 5xx codes. *)
Definition raise_for_status {B : Type} (r : response B) : outcome unit :=
  if ((400 <=? status_code r) && (status_code r <? 600))%Z then Raise
  else Ret tt.

(** One step of [response.iter_content]: a chunk of the body, or the
    exception the transport raises in the middle of the stream. *)
Inductive stream_item : Type :=
| Chunk (data : list Byte.byte)
| StreamError.

(** The parsed listing, as far as [get_mirrors] looks at it:
    [soup.find_all('tr')], [row.find_all('td')], the anchors below a
    cell in document order, and [link.get('href')]. *)
Record anchor : Type := mkAnchor { href : option string }.
Record td : Type := mkTd { anchors : list anchor }.
Record tr : Type := mkTr { cols : list td }.
Definition soup : Type := list tr.

(** [urlparse(url)]: the two fields the probe reads. *)
Record parse_result : Type := mkParse {
  netloc : string;
  path : string
}.

(** Python truthiness of [str] and [bytes]. *)
Definition truthy (s : string) : bool := negb (String.eqb s "").

Definition nonempty (chunk : list Byte.byte) : bool :=
  match chunk with
  | [] => false
  | _ :: _ => true
  end.

Definition Qltb (a b : Q) : bool := negb (Qle_bool b a).

(* ================================================================== *)
(** ** [MirrorSpeedTester] and [main] *)
(* ================================================================== *)

Module Tester.

Import PyStr.

(** The attributes set by [__init__]. *)
Definition mirrors_url : string := "https://www.debian.org/mirror/list".

Definition speed_files : PyDict.dict string :=
  [ ("amd64", "dists/stable/main/binary-amd64/Packages.gz");
    ("arm64", "dists/stable/main/binary-arm64/Packages.gz") ].

Definition timeout : Q := 1.
Definition chunk_size : Z := 65536.
Definition download_limit : Z := 512 * 1024.
Definition max_connections : nat := 12.

(** *** [get_mirrors] *)

(** [cols[1].find('a')], then [link and link.get('href')]: the href of the
    first anchor of the second cell, when it is there and not empty. *)
Definition row_href (row : tr) : option string :=
  match cols row with
  | _ :: cell :: _ =>
      match anchors cell with
      | link :: _ =>
          match href link with
          | Some h => if truthy h then Some h else None
          | None => None
          end
      | [] => None
      end
  | _ => None
  end.

(** The loop over [soup.find_all('tr')], appending to [mirrors]. *)
Fixpoint collect_hrefs (rows : soup) (mirrors : list string) : list string :=
  match rows with
  | [] => mirrors
  | row :: rows' =>
      match row_href row with
      | Some h => collect_hrefs rows' (mirrors ++ [h])
      | None => collect_hrefs rows' mirrors
      end
  end.

(** [list(dict.fromkeys(mirrors))] *)
Definition unique (mirrors : list string) : list string :=
  PyDict.keys (PyDict.fromkeys mirrors).

(** The body of the [try] of [get_mirrors], given what
    [requests.get(self.mirrors_url)] does. *)
Definition get_mirrors_try (listing : outcome (response soup))
  : outcome (list string) :=
  match listing with
  | Raise => Raise
  | Ret r =>
      match raise_for_status r with
      | Raise => Raise
      | Ret _ => Ret (unique (collect_hrefs (content r) []))
      end
  end.

(** [get_mirrors]: [except Exception] logs the error and returns [[]]. *)
Definition get_mirrors (listing : outcome (response soup))
  : outcome (list string) :=
  match get_mirrors_try listing with
  | Ret mirrors => Ret mirrors
  | Raise => Ret []
  end.

(** *** [test_mirror_speed] *)

(** The order in which the two schemes are tried. *)
Definition schemes (mirror : string) : list string :=
  if startswith mirror "http://" then ["https"; "http"]
  else ["http"; "https"].

(** [mirror[:mirror.find('/debian/')+8] if '/debian/' in mirror
     else mirror.rsplit('/', 4)[0]] *)
Definition base_url (mirror : string) : string :=
  if contains "/debian/" mirror
  then slice_to mirror (find mirror "/debian/" + 8)
  else hd "" (rsplit "/" 4 mirror).

(** [f"{scheme}://{urlparse(url).netloc}{urlparse(url).path}"] *)
Definition target (scheme : string) (p : parse_result) : string :=
  scheme ++ "://" ++ netloc p ++ path p.

(** [total_size / duration / 1024 / 1024] *)
Definition speed_of (total_size : Z) (duration : Q) : Q :=
  (inject_Z total_size / duration / 1024 / 1024)%Q.

Section Probe.

(** [urllib.parse.urljoin] and [urlparse], [session.get] as a function of
    the URL, and the readings [time.time()] gives to this call. *)
Variable urljoin : string -> string -> outcome string.
Variable urlparse : string -> outcome parse_result.
Variable session_get : string -> outcome (response (list stream_item)).
Variable clock : nat -> Q.

Local Open Scope probe_scope.

Definition time_time : M Q :=
  fun w => (Ret (clock (ticks w)), mkWorld (S (ticks w)) (requests w)).

Definition get (url : string) : M (response (list stream_item)) :=
  fun w => (session_get url, mkWorld (ticks w) (requests w ++ [url])).

(** The first statement of the [try]: [urlparse] may raise. *)
Definition test_url_of (scheme url : string) : outcome string :=
  match urlparse url with
  | Ret p => Ret (target scheme p)
  | Raise => Raise
  end.

(** The [for chunk in response.iter_content(...)] loop. *)
Fixpoint read_body (start_time : Q) (items : list stream_item)
    (total_size : Z) : M Z :=
  match items with
  | [] => ret total_size
  | StreamError :: _ => raise
  | Chunk chunk :: rest =>
      if nonempty chunk then
        let total_size := (total_size + Z.of_nat (List.length chunk))%Z in
        if (download_limit <=? total_size)%Z then ret total_size
        else
          now <- time_time ;;
          if Qltb timeout (now - start_time) then ret total_size
          else read_body start_time rest total_size
      else read_body start_time rest total_size
  end.

(** The body of the [try] for one scheme: [Some] is the [return] inside
    it, [None] is falling out of the [if] to the next scheme. *)
Definition attempt (mirror url scheme : string) : M (option (string * Q)) :=
  test_url <- lift (test_url_of scheme url) ;;
  start_time <- time_time ;;
  response <- get test_url ;;
  lift (raise_for_status response) ;;;
  total_size <- read_body start_time (content response) 0 ;;
  now <- time_time ;;
  let duration := (now - start_time)%Q in
  if Qltb 0 duration && (0 <? total_size)%Z
  then ret (Some (base_url mirror, speed_of total_size duration))
  else ret None.

(** [for scheme in schemes: try: ... except: continue], then
    [return None, 0]. *)
Fixpoint try_schemes (mirror url : string) (l : list string)
  : M (option string * Q) :=
  match l with
  | [] => ret (None, 0%Q)
  | scheme :: l' =>
      r <- try_except (attempt mirror url scheme) (ret None) ;;
      match r with
      | Some (b, speed) => ret (Some b, speed)
      | None => try_schemes mirror url l'
      end
  end.

Definition test_mirror_speed (mirror test_file : string)
  : M (option string * Q) :=
  url <- lift (urljoin mirror test_file) ;;
  try_schemes mirror url (schemes mirror).

End Probe.

(** *** [main] *)

(** [sorted(items, key=lambda x: x[1], reverse=True)]: a stable sort, the
    greatest speed first. *)
Fixpoint insert_desc (x : string * Q) (l : list (string * Q))
  : list (string * Q) :=
  match l with
  | [] => [x]
  | y :: l' => if Qltb (snd x) (snd y) then y :: insert_desc x l' else x :: l
  end.

Definition sorted_desc (l : list (string * Q)) : list (string * Q) :=
  fold_right insert_desc [] l.

(** [sorted(arch_results.items(), ...)[:5]] *)
Definition sorted_mirrors (arch_results : PyDict.dict Q)
  : list (string * Q) :=
  firstn 5 (sorted_desc (PyDict.items arch_results)).

(** The body of the [as_completed] loop for one future: the result is
    kept when it has a base URL and a positive speed, an exception is
    passed over, and the bar moves in every case. *)
Definition collect (st : PyDict.dict Q * nat)
    (done : outcome (option string * Q)) : PyDict.dict Q * nat :=
  let (arch_results, pbar) := st in
  let arch_results' :=
    match done with
    | Ret (Some b, speed) =>
        if truthy b && Qltb 0 speed then PyDict.set b speed arch_results
        else arch_results
    | Ret (None, _) => arch_results
    | Raise => arch_results
    end in
  (arch_results', S pbar).

Section Report.

(** [f"{speed:>8.2f}"] without the padding. *)
Variable format_2f : Q -> string.

Definition table_row (e : string * Q) : string :=
  ljust 40 (fst e) ++ " " ++ rjust 8 (format_2f (snd e)).

(** What [main] prints after the tests, one entry for each [print]. *)
Definition report (n_mirrors : nat) (arch_results : PyDict.dict Q)
  : list string :=
  match sorted_mirrors arch_results with
  | fastest :: _ =>
      [ String "010" "Top 5 mirrors by Packages.gz download speed:";
        String "010" "Mirror                                     Speed (MB/s)";
        repeat_char "-" 60 ]
      ++ map table_row (sorted_mirrors arch_results)
      ++ [ String "010" "Sources list entries for fastest mirror:";
           "deb " ++ fst fastest ++ " stable main contrib non-free";
           "deb " ++ fst fastest ++ " stable-updates main contrib non-free" ]
  | [] => [ String "010" "No working mirrors found" ]
  end
  ++ [ String "010" "Tested " ++ of_nat n_mirrors ++ " mirrors, found "
       ++ of_nat (PyDict.len arch_results) ++ " working" ].

End Report.

(** The lines a sequence of [print] calls shows. *)
Definition printed_lines (out : list string) : list string :=
  flat_map (split_all "010") out.

(** What a run leaves: the arguments of its [print] calls in order, the
    position of the progress bar, and the results. *)
Record run : Type := mkRun {
  stdout : list string;
  pbar : nat;
  arch_results : PyDict.dict Q
}.

(** What a future holds when it is done: the pair the probe returned, or
    the exception it raised. *)
Definition future : Type := outcome (option string * Q).

(** [concurrent.futures.as_completed]: the futures in the order in which
    they finish, which is some rearrangement of the submitted ones. *)
Record completion : Type := mkCompletion {
  as_completed : list future -> list future;
  as_completed_perm : forall l, Permutation (as_completed l) l
}.

Section Main.

Variable machine : string.
Variable listing : outcome (response soup).
Variable urljoin : string -> string -> outcome string.
Variable urlparse : string -> outcome parse_result.
Variable session_get : string -> outcome (response (list stream_item)).
(** Each probe runs in a thread of its own: [clock mirror] are the
    readings its calls of [time.time()] give. *)
Variable clock : string -> nat -> Q.
Variable order : completion.
Variable format_2f : Q -> string.

Definition system_arch : string :=
  if startswith machine "aarch64" then "arm64" else "amd64".

(** [executor.submit(tester.test_mirror_speed, mirror, test_file, session)]
    as the result its future will hold. *)
Definition submit (mirror test_file : string) : future :=
  fst (test_mirror_speed urljoin urlparse session_get (clock mirror)
         mirror test_file world0).

(** The dict comprehension [future_to_mirror]; the lookup
    [tester.speed_files[system_arch]] is made for every mirror. *)
Fixpoint submit_all (mirrors : list string) : outcome (list future) :=
  match mirrors with
  | [] => Ret []
  | mirror :: mirrors' =>
      match PyDict.get speed_files system_arch with
      | None => Raise
      | Some test_file =>
          match submit_all mirrors' with
          | Raise => Raise
          | Ret futures => Ret (submit mirror test_file :: futures)
          end
      end
  end.

(** The loop over [as_completed(future_to_mirror)]. *)
Definition gather (futures : list future) : PyDict.dict Q * nat :=
  fold_left collect (as_completed order futures) ([], 0).

Definition main : outcome run :=
  match get_mirrors listing with
  | Raise => Raise
  | Ret mirrors =>
      let out :=
        [ String "010" "Testing " ++ of_nat (List.length mirrors)
          ++ " mirrors..." ] in
      match submit_all mirrors with
      | Raise => Raise
      | Ret futures =>
          let (arch_results, pbar) := gather futures in
          Ret (mkRun
                 (out ++ report format_2f (List.length mirrors) arch_results)
                 pbar arch_results)
      end
  end.

End Main.

End Tester.

(* ================================================================== *)
(** ** A model of [urllib.parse] for the concrete runs below *)
(* ================================================================== *)

(** [Tester] takes [urljoin] and [urlparse] as parameters, and the general
    theorems hold for every choice of them.  The runs on concrete inputs
    use this model of the library: URLs without blanks or control
    characters, and a reference that is a plain relative path (as both
    entries of [speed_files] are). *)
Module UrlLib.

Import PyStr.

Definition uses_relative : list string :=
  [ ""; "ftp"; "http"; "gopher"; "nntp"; "imap"; "wais"; "file"; "https";
    "shttp"; "mms"; "prospero"; "rtsp"; "rtspu"; "sftp"; "svn"; "svn+ssh";
    "ws"; "wss" ].

Definition uses_netloc : list string :=
  [ ""; "ftp"; "http"; "gopher"; "nntp"; "telnet"; "imap"; "wais"; "file";
    "mms"; "https"; "shttp"; "snews"; "prospero"; "rtsp"; "rtspu"; "rsync";
    "svn"; "svn+ssh"; "sftp"; "nfs"; "git"; "git+ssh"; "ws"; "wss" ].

Definition uses_params : list string :=
  [ ""; "ftp"; "hdl"; "prospero"; "http"; "imap"; "https"; "shttp"; "rtsp";
    "rtspu"; "sip"; "sips"; "mms"; "sftp"; "tel" ].

Definition mem (s : string) (l : list string) : bool :=
  existsb (String.eqb s) l.

Definition between (lo hi : nat) (c : ascii) : bool :=
  (lo <=? nat_of_ascii c)%nat && (nat_of_ascii c <=? hi)%nat.

Definition is_alpha (c : ascii) : bool := between 65 90 c || between 97 122 c.

Definition is_scheme_char (c : ascii) : bool :=
  is_alpha c || between 48 57 c
  || Ascii.eqb c "+" || Ascii.eqb c "-" || Ascii.eqb c ".".

Definition lower_char (c : ascii) : ascii :=
  if between 65 90 c then ascii_of_nat (nat_of_ascii c + 32) else c.

Fixpoint lower (s : string) : string :=
  match s with
  | EmptyString => EmptyString
  | String a s' => String (lower_char a) (lower s')
  end.

Fixpoint all_chars (f : ascii -> bool) (s : string) : bool :=
  match s with
  | EmptyString => true
  | String a s' => f a && all_chars f s'
  end.

(** The longest prefix without a character of [f], and the rest. *)
Fixpoint span_until (f : ascii -> bool) (s : string) : string * string :=
  match s with
  | EmptyString => (EmptyString, EmptyString)
  | String a s' =>
      if f a then (EmptyString, s)
      else let (l, r) := span_until f s' in (String a l, r)
  end.

Definition split_scheme (url : string) : string * string :=
  match cut ":" url with
  | Some (String a pre, rest) =>
      if is_alpha a && all_chars is_scheme_char pre
      then (lower (String a pre), rest)
      else (EmptyString, url)
  | _ => (EmptyString, url)
  end.

Definition is_delim (c : ascii) : bool :=
  Ascii.eqb c "/" || Ascii.eqb c "?" || Ascii.eqb c "#".

Definition before (sep : ascii) (s : string) : string :=
  match cut sep s with
  | Some (l, _) => l
  | None => s
  end.

(** [_splitparams]: the parameters are cut off the last path segment. *)
Definition strip_params (url : string) : string :=
  match rsplit "/" 1 url with
  | [dir; seg] => dir ++ "/" ++ before ";" seg
  | _ => before ";" url
  end.

Record parts : Type := mkParts {
  p_scheme : string;
  p_netloc : string;
  p_path : string
}.

(** [urlparse(url)]: scheme, netloc and path; [ValueError] when only one
    of the two brackets of an IPv6 host is there. *)
Definition parse (url : string) : outcome parts :=
  let (scheme, rest) := split_scheme url in
  let (loc, rest) :=
    if startswith rest "//"
    then span_until is_delim (substring 2 (String.length rest - 2) rest)
    else (EmptyString, rest) in
  if xorb (contains "[" loc) (contains "]" loc) then Raise
  else
    let rest := before "?" (before "#" rest) in
    let rest := if mem scheme uses_params then strip_params rest else rest in
    Ret (mkParts scheme loc rest).

Definition urlparse (url : string) : outcome parse_result :=
  match parse url with
  | Ret p => Ret (mkParse (p_netloc p) (p_path p))
  | Raise => Raise
  end.

(** [urlunparse] of a scheme, a netloc and a path. *)
Definition unparse (scheme loc pth : string) : string :=
  let url :=
    if truthy loc
       || (truthy scheme && mem scheme uses_netloc
           && negb (startswith pth "//"))
    then "//" ++ loc
         ++ (if truthy pth && negb (startswith pth "/") then "/" ++ pth
             else pth)
    else pth in
  if truthy scheme then scheme ++ ":" ++ url else url.

(** [s.split('/')] *)
Definition segments_of (s : string) : list string := split_all "/" s.

(** [segments[1:-1] = filter(None, segments[1:-1])] *)
Definition drop_inner_empty (l : list string) : list string :=
  match l with
  | [] => []
  | [a] => [a]
  | a :: l' => a :: filter truthy (removelast l') ++ [last l' ""]
  end.

Fixpoint resolve (l : list string) (acc : list string) : list string :=
  match l with
  | [] => acc
  | seg :: l' =>
      if String.eqb seg ".." then resolve l' (removelast acc)
      else if String.eqb seg "." then resolve l' acc
      else resolve l' (acc ++ [seg])
  end.

(** [urljoin(base, ref)] for a reference that is a relative path. *)
Definition urljoin (base ref : string) : outcome string :=
  if negb (truthy base) then Ret ref
  else if negb (truthy ref) then Ret base
  else
    match parse base with
    | Raise => Raise
    | Ret b =>
        if negb (mem (p_scheme b) uses_relative) then Ret ref
        else
          let base_parts := segments_of (p_path b) in
          let base_parts :=
            if truthy (last base_parts "") then removelast base_parts
            else base_parts in
          let segments :=
            if startswith ref "/" then segments_of ref
            else drop_inner_empty (base_parts ++ segments_of ref) in
          let resolved := resolve segments [] in
          let resolved :=
            if String.eqb (last segments "") "."
               || String.eqb (last segments "") ".."
            then (resolved ++ [""])%list else resolved in
          let joined := String.concat "/" resolved in
          Ret (unparse (p_scheme b) (p_netloc b)
                 (if truthy joined then joined else "/"))
    end.

End UrlLib.

(* ================================================================== *)
(** ** The claims in the specification's words, and sample inputs *)
(* ================================================================== *)

Module Spec.

Import PyStr.

(** The scheme order as the specification words it: the candidate's own
    scheme first. *)
Definition scheme_order (candidate : string) : list string :=
  if startswith candidate "http://" then ["http"; "https"]
  else ["https"; "http"].

(** A sequence with its exact duplicates removed, the first occurrences
    kept in their order. *)
Fixpoint first_occurrences (l : list string) : list string :=
  match l with
  | [] => []
  | x :: l' =>
      x :: filter (fun y => negb (String.eqb y x)) (first_occurrences l')
  end.

(** Throughput in bytes per second. *)
Definition bytes_per_second (bytes : Z) (seconds : Q) : Q :=
  (inject_Z bytes / seconds)%Q.

(** The summary line, without the blank line before it. *)
Definition summary (n_mirrors n_working : nat) : string :=
  "Tested " ++ PyStr.of_nat n_mirrors ++ " mirrors, found "
  ++ PyStr.of_nat n_working ++ " working".

(** The order of a ranked report: [a] may stand before [b]. *)
Definition at_least_as_fast (a b : string * Q) : Prop := (snd b <= snd a)%Q.

(** Every chunk of the stream has at most [chunk_size] bytes. *)
Definition chunk_ok (it : stream_item) : Prop :=
  match it with
  | Chunk c => (Z.of_nat (List.length c) <= Tester.chunk_size)%Z
  | StreamError => True
  end.

(** The ways in which the attempt on one scheme, started in the state
    [w0], gives no sample: the request raises (no connection, TLS,
    timeout), the status is an error, or the body, read from the state
    the request leaves, raises in the middle, holds no byte, or is read
    in no time. *)
Definition scheme_fails
    (session_get : string -> outcome (response (list stream_item)))
    (clock : nat -> Q) (test_url : string) (w0 : world) : Prop :=
  session_get test_url = Raise
  \/ exists resp,
      session_get test_url = Ret resp
      /\ (raise_for_status resp = Raise
          \/ match Tester.read_body clock (clock (ticks w0)) (content resp) 0
                    (mkWorld (S (ticks w0)) (requests w0 ++ [test_url]))
             with
             | (Raise, _) => True
             | (Ret total, w1) =>
                 (total <= 0)%Z
                 \/ (clock (ticks w1) - clock (ticks w0) <= 0)%Q
             end).

End Spec.

Module Samples.

Import PyStr.

Definition amd64_file : string := "dists/stable/main/binary-amd64/Packages.gz".

(** A chunk of [n] bytes. *)
Definition bytes (n : Z) : list Byte.byte := List.repeat Byte.x00 (Z.to_nat n).

(** A clock that advances by a hundredth of a second at each reading. *)
Definition centi_clock (n : nat) : Q := (Z.of_nat n # 100)%Q.

(** A clock that advances by half a second at each reading. *)
Definition half_clock (n : nat) : Q := (Z.of_nat n # 2)%Q.

(** No host answers. *)
Definition no_network (url : string) : outcome (response (list stream_item)) :=
  Raise.

(** A host that serves one chunk of 64 KiB over HTTPS only. *)
Definition https_only (url : string)
  : outcome (response (list stream_item)) :=
  if startswith url "https://"
  then Ret (mkResponse 200 [Chunk (bytes 65536)])
  else Raise.

(** A host that sends the body in chunks of 65535 bytes. *)
Definition short_chunks (url : string)
  : outcome (response (list stream_item)) :=
  Ret (mkResponse 200 (List.repeat (Chunk (bytes 65535)) 12)).

(** Futures finish in the order of submission, or in the reverse order. *)
Definition in_order : Tester.completion :=
  Tester.mkCompletion (fun l => l) (fun l => Permutation_refl l).

Definition reversed : Tester.completion :=
  Tester.mkCompletion (fun l => List.rev l)
    (fun l => Permutation_sym (Permutation_rev l)).

(** A speed with a dot and nothing else: the formatting is not looked at. *)
Definition no_format (speed : Q) : string := ".".

(** A listing of three rows, two of them with the same link. *)
Definition link_row (h : string) : tr :=
  mkTr [mkTd []; mkTd [mkAnchor (Some h)]].

Definition listing3 : soup :=
  [ link_row "http://ftp.debian.org/debian/";
    link_row "http://ftp.de.debian.org/debian/";
    link_row "http://ftp.debian.org/debian/" ].

End Samples.

(* ================================================================== *)
(** ** Measures of a body and of a future *)
(* ================================================================== *)

Module Body.

(** The bytes of the chunks of a stream. *)
Fixpoint sum_len (items : list stream_item) : Z :=
  match items with
  | [] => 0
  | Chunk c :: rest => Z.of_nat (List.length c) + sum_len rest
  | StreamError :: rest => sum_len rest
  end.

(** The bytes of the first chunk that is not empty, when the stream has
    one before it breaks. *)
Fixpoint first_nonempty_len (items : list stream_item) : Z :=
  match items with
  | [] => 0
  | Chunk c :: rest =>
      if nonempty c then Z.of_nat (List.length c)
      else first_nonempty_len rest
  | StreamError :: _ => 0
  end.

(** A chunk of exactly [chunk_size] bytes. *)
Definition full_chunk (it : stream_item) : Prop :=
  match it with
  | Chunk c => Z.of_nat (List.length c) = Tester.chunk_size
  | StreamError => True
  end.

(** The hrefs the rows of a listing give, in the order of the rows. *)
Definition hrefs_of (rows : soup) : list string :=
  flat_map (fun row =>
              match Tester.row_href row with
              | Some h => [h]
              | None => []
              end) rows.

(** The speeds equal to [v]. *)
Definition has_speed (v : Q) (e : string * Q) : bool := Qeq_bool (snd e) v.

(** The sample a future holds that the scheduler keeps: a base URL that
    is not empty with a speed above 0. *)
Definition sample_of (f : Tester.future) : list (string * Q) :=
  match f with
  | Ret (Some b, speed) =>
      if truthy b && Qltb 0 speed then [(b, speed)] else []
  | Ret (None, _) => []
  | Raise => []
  end.

Definition samples (futures : list Tester.future) : list (string * Q) :=
  flat_map sample_of futures.

End Body.

(* ================================================================== *)
(** * Facts about the [str] operations *)
(* ================================================================== *)

Module PyStrFacts.

Import PyStr.

Lemma sapp_nil_r (s : string) : s ++ "" = s.
Proof. induction s as [|a s IH]; simpl; [reflexivity | now rewrite IH]. Qed.

Lemma sapp_assoc (a b c : string) : (a ++ b) ++ c = a ++ (b ++ c).
Proof. induction a as [|x a IH]; simpl; [reflexivity | now rewrite IH]. Qed.

Lemma slength_app (a b : string) :
  String.length (a ++ b) = String.length a + String.length b.
Proof. induction a as [|x a IH]; simpl; [reflexivity | now rewrite IH]. Qed.

Lemma startswith_spec (s p : string) :
  startswith s p = true <-> exists post, s = p ++ post.
Proof.
  revert s; induction p as [|a p IH]; intros s; simpl.
  - split; [intros _; now exists s | reflexivity].
  - destruct s as [|b s].
    + split; [discriminate | intros [post H]; discriminate].
    + destruct (Ascii.eqb_spec a b) as [->|Hab].
      * rewrite IH. split; intros [post H]; exists post.
        -- now rewrite H.
        -- now injection H.
      * split; [discriminate|].
        intros [post H]. injection H as H1 _. now subst.
Qed.

Lemma find_nat_cons (a : ascii) (s sub : string) :
  find_nat (String a s) sub =
  if startswith (String a s) sub then Some 0 else option_map S (find_nat s sub).
Proof. reflexivity. Qed.

Lemma find_nat_occurs (s sub : string) (i : nat) :
  find_nat s sub = Some i -> occurs_at sub s i.
Proof.
  revert i; induction s as [|a s IH]; intros i.
  - simpl. destruct (startswith "" sub) eqn:E; [|discriminate].
    intros [= <-]. apply startswith_spec in E as [post E].
    now exists "", post.
  - rewrite find_nat_cons.
    destruct (startswith (String a s) sub) eqn:E.
    + intros [= <-]. apply startswith_spec in E as [post E].
      now exists "", post.
    + destruct (find_nat s sub) as [k|]; [|discriminate].
      intros [= <-]. destruct (IH k eq_refl) as (pre & post & Hs & Hl).
      exists (String a pre), post. simpl. now rewrite Hs, Hl.
Qed.

Lemma find_nat_least (s sub : string) (i j : nat) :
  find_nat s sub = Some i -> occurs_at sub s j -> i <= j.
Proof.
  revert i j; induction s as [|a s IH]; intros i j.
  - simpl. destruct (startswith "" sub); [|discriminate].
    intros [= <-] _. lia.
  - rewrite find_nat_cons.
    destruct (startswith (String a s) sub) eqn:E.
    + intros [= <-] _. lia.
    + destruct (find_nat s sub) as [k|]; [|discriminate].
      intros [= <-] (pre & post & Hs & Hl).
      destruct pre as [|b pre]; simpl in *.
      * assert (startswith (String a s) sub = true) as E'
          by (apply startswith_spec; now exists post).
        congruence.
      * injection Hs as _ Hs. subst j.
        enough (k <= String.length pre) by lia.
        apply IH; [reflexivity | now exists pre, post].
Qed.

Lemma find_nat_none (s sub : string) (j : nat) :
  find_nat s sub = None -> ~ occurs_at sub s j.
Proof.
  revert j; induction s as [|a s IH]; intros j.
  - simpl. destruct (startswith "" sub) eqn:E; [discriminate|].
    intros _ (pre & post & Hs & _).
    destruct pre; [|discriminate]. simpl in Hs.
    assert (startswith "" sub = true) as E'
      by (apply startswith_spec; now exists post).
    congruence.
  - rewrite find_nat_cons.
    destruct (startswith (String a s) sub) eqn:E; [discriminate|].
    destruct (find_nat s sub) as [k|] eqn:F; [discriminate|].
    intros _ (pre & post & Hs & Hl).
    destruct pre as [|b pre]; simpl in *.
    + assert (startswith (String a s) sub = true) as E'
        by (apply startswith_spec; now exists post).
      congruence.
    + injection Hs as _ Hs.
      apply (IH (String.length pre) eq_refl). now exists pre, post.
Qed.

(** [find_nat] is the least index at which [sub] occurs. *)
Lemma find_nat_intro (s sub : string) (i : nat) :
  occurs_at sub s i ->
  (forall j, occurs_at sub s j -> i <= j) ->
  find_nat s sub = Some i.
Proof.
  intros Hocc Hleast.
  destruct (find_nat s sub) as [k|] eqn:F.
  - f_equal. apply Nat.le_antisymm.
    + eapply find_nat_least; eauto.
    + apply Hleast. now apply find_nat_occurs.
  - exfalso. eapply find_nat_none; eauto.
Qed.

Lemma take_app (a b : string) : take (String.length a) (a ++ b) = a.
Proof. induction a as [|x a IH]; simpl; [now destruct b | now rewrite IH]. Qed.

Lemma take_all (n : nat) (s : string) :
  String.length s <= n -> take n s = s.
Proof.
  revert n; induction s as [|a s IH]; intros [|n] H; simpl in *;
    try reflexivity; try lia.
  rewrite IH; [reflexivity | lia].
Qed.

Lemma occurs_at_extend (sub s t : string) (j : nat) :
  occurs_at sub s j -> occurs_at sub (s ++ t) j.
Proof.
  intros (pre & post & -> & Hl). exists pre, (post ++ t).
  now rewrite !sapp_assoc.
Qed.

End PyStrFacts.

(* ================================================================== *)
(** * The base URL of a result *)
(* ================================================================== *)

Module BaseUrlFacts.

Import PyStr PyStrFacts Tester.

Lemma rev_app (a b : string) : rev (a ++ b) = rev b ++ rev a.
Proof.
  induction a as [|x a IH]; simpl.
  - now rewrite sapp_nil_r.
  - now rewrite IH, sapp_assoc.
Qed.

Lemma rev_involutive (s : string) : rev (rev s) = s.
Proof.
  induction s as [|x s IH]; simpl; [reflexivity|].
  now rewrite rev_app, IH.
Qed.

Lemma count_app (c : ascii) (a b : string) :
  count c (a ++ b) = count c a + count c b.
Proof. induction a as [|x a IH]; simpl; [reflexivity | rewrite IH; lia]. Qed.

Lemma count_rev (c : ascii) (s : string) : count c (rev s) = count c s.
Proof.
  induction s as [|x s IH]; simpl; [reflexivity|].
  rewrite count_app, IH. simpl. lia.
Qed.

Lemma cut_none (sep : ascii) (s : string) :
  cut sep s = None -> count sep s = 0.
Proof.
  induction s as [|a s IH]; simpl; [reflexivity|].
  destruct (Ascii.eqb a sep); [discriminate|].
  destruct (cut sep s) as [[l r]|]; [discriminate | auto].
Qed.

Lemma cut_some (sep : ascii) (s l r : string) :
  cut sep s = Some (l, r) -> s = l ++ String sep r /\ count sep l = 0.
Proof.
  revert l; induction s as [|a s IH]; intros l; simpl; [discriminate|].
  destruct (Ascii.eqb_spec a sep) as [->|Hne].
  - intros [= <- <-]. now split.
  - destruct (cut sep s) as [[l' r']|]; [|discriminate].
    intros [= <- <-]. destruct (IH l' eq_refl) as [-> Hc]. split; [reflexivity|].
    simpl. destruct (Ascii.eqb_spec a sep); [contradiction | exact Hc].
Qed.

Lemma split_nonempty (sep : ascii) (n : nat) (s : string) :
  split sep n s <> [].
Proof.
  destruct n; simpl; [discriminate|].
  destruct (cut sep s) as [[l r]|]; discriminate.
Qed.

(** The last piece of a split from the left, and what stands before it:
    as many separators as splits were made, the last one at its end. *)
Lemma split_last (sep : ascii) (n : nat) (s : string) :
  exists front,
    s = front ++ last (split sep n s) ""
    /\ count sep front = Nat.min n (count sep s)
    /\ (front = "" \/ exists f, front = f ++ String sep "").
Proof.
  revert s; induction n as [|n IH]; intros s.
  - exists "". simpl. auto.
  - cbn [split]. destruct (cut sep s) as [[l r]|] eqn:E.
    + apply cut_some in E as [-> Hl].
      destruct (IH r) as (front & Hr & Hc & Hend).
      exists (l ++ String sep front). repeat split.
      * assert (last (l :: split sep n r) "" = last (split sep n r) "") as ->.
        { destruct (split sep n r) eqn:S; [|reflexivity].
          now apply split_nonempty in S. }
        rewrite sapp_assoc. simpl. now rewrite <- Hr.
      * rewrite !count_app. cbn [count]. rewrite Ascii.eqb_refl, Hl, Hc. lia.
      * right. destruct Hend as [->|[f ->]].
        -- now exists l.
        -- exists (l ++ String sep f). rewrite sapp_assoc. reflexivity.
    + exists "". rewrite (cut_none _ _ E), Nat.min_0_r. simpl. auto.
Qed.

(** [s.rsplit(sep, n)[0]] is [s] without a tail that starts at one of its
    separators and holds [n] of them, or all when [s] has fewer. *)
Lemma rsplit_head (sep : ascii) (n : nat) (s : string) :
  exists tail,
    s = hd "" (rsplit sep n s) ++ tail
    /\ count sep tail = Nat.min n (count sep s)
    /\ (tail = "" \/ startswith tail (String sep "") = true).
Proof.
  unfold rsplit.
  destruct (split_last sep n (rev s)) as (front & Hs & Hc & Hend).
  assert (hd "" (List.rev (map rev (split sep n (rev s))))
          = rev (last (split sep n (rev s)) "")) as ->.
  { generalize (split_nonempty sep n (rev s)).
    generalize (split sep n (rev s)) as l.
    induction l as [|x l IHl] using rev_ind; intros Hne; [contradiction|].
    rewrite map_app, rev_app_distr, last_last. reflexivity. }
  exists (rev front). repeat split.
  - rewrite <- rev_app, <- Hs. now rewrite rev_involutive.
  - now rewrite count_rev, Hc, count_rev.
  - destruct Hend as [->|[f ->]]; [now left | right].
    rewrite rev_app. simpl. now rewrite Ascii.eqb_refl.
Qed.

(** On a candidate with the marker, the base URL is the candidate up to
    the end of the first marker. *)
Lemma base_url_marker (mirror : string) :
  contains "/debian/" mirror = true ->
  exists pre post,
    mirror = pre ++ "/debian/" ++ post
    /\ (forall j, occurs_at "/debian/" mirror j -> String.length pre <= j)
    /\ base_url mirror = pre ++ "/debian/".
Proof.
  unfold base_url, contains, find. intros H. rewrite H.
  destruct (find_nat mirror "/debian/") as [i|] eqn:F; [|discriminate].
  destruct (find_nat_occurs _ _ _ F) as (pre & post & Hm & Hl).
  exists pre, post. repeat split; [exact Hm | |].
  - intros j Hj. rewrite Hl. eapply find_nat_least; eauto.
  - unfold slice_to.
    destruct (Z.leb_spec 0 (Z.of_nat i + 8)) as [_|]; [|lia].
    replace (Z.to_nat (Z.of_nat i + 8))
      with (String.length (pre ++ "/debian/"))
      by (rewrite slength_app, Hl; simpl; lia).
    rewrite Hm, <- sapp_assoc. apply take_app.
Qed.

(** On a candidate without the marker, the base URL is the candidate
    without its last four segments, or without all that follow the first
    [/] when there are fewer. *)
Lemma base_url_fallback (mirror : string) :
  contains "/debian/" mirror = false ->
  exists tail,
    mirror = base_url mirror ++ tail
    /\ count "/" tail = Nat.min 4 (count "/" mirror)
    /\ (tail = "" \/ startswith tail "/" = true).
Proof.
  unfold base_url. intros ->. apply rsplit_head.
Qed.

End BaseUrlFacts.

(** C10: on a candidate that contains [/debian/], the base URL is the
    candidate cut after the first [/debian/], so it ends with the marker,
    and computing the base URL of that result gives it back unchanged. *)
Theorem base_url_marker_idempotent (mirror : string) :
  PyStr.contains "/debian/" mirror = true ->
  exists pre post,
    mirror = pre ++ "/debian/" ++ post
    /\ (forall j, PyStr.occurs_at "/debian/" mirror j -> String.length pre <= j)
    /\ Tester.base_url mirror = pre ++ "/debian/"
    /\ PyStr.contains "/debian/" (Tester.base_url mirror) = true
    /\ Tester.base_url (Tester.base_url mirror) = Tester.base_url mirror.
Proof.
  intros H.
  destruct (BaseUrlFacts.base_url_marker mirror H) as (pre & post & Hm & Hleast & Hb).
  exists pre, post. split; [exact Hm|]. split; [exact Hleast|].
  split; [exact Hb|].
  assert (PyStr.find_nat (pre ++ "/debian/") "/debian/"
          = Some (String.length pre)) as F.
  { apply PyStrFacts.find_nat_intro.
    - exists pre, "". split; [reflexivity | reflexivity].
    - intros j Hj. apply Hleast. rewrite Hm.
      rewrite <- PyStrFacts.sapp_assoc.
      now apply PyStrFacts.occurs_at_extend. }
  rewrite Hb. split.
  - unfold PyStr.contains. now rewrite F.
  - unfold Tester.base_url, PyStr.contains, PyStr.find. rewrite F.
    unfold PyStr.slice_to.
    destruct (Z.leb_spec 0 (Z.of_nat (String.length pre) + 8)) as [_|]; [|lia].
    apply PyStrFacts.take_all.
    rewrite PyStrFacts.slength_app. simpl. lia.
Qed.

Lemma base_url_marker_idempotent_witness :
  exists pre post,
    "http://ftp.debian.org/debian/dists/" = pre ++ "/debian/" ++ post
    /\ (forall j,
          PyStr.occurs_at "/debian/" "http://ftp.debian.org/debian/dists/" j ->
          String.length pre <= j)
    /\ Tester.base_url "http://ftp.debian.org/debian/dists/" = pre ++ "/debian/"
    /\ PyStr.contains "/debian/"
         (Tester.base_url "http://ftp.debian.org/debian/dists/") = true
    /\ Tester.base_url (Tester.base_url "http://ftp.debian.org/debian/dists/")
       = Tester.base_url "http://ftp.debian.org/debian/dists/".
Proof.
  apply (base_url_marker_idempotent "http://ftp.debian.org/debian/dists/").
  reflexivity.
Defined.

(* ================================================================== *)
(** * One probe *)
(* ================================================================== *)

Module ProbeFacts.

Import PyStr Tester Spec.

Local Open Scope list_scope.

Section Probe.

Variable urljoin : string -> string -> outcome string.
Variable urlparse : string -> outcome parse_result.
Variable session_get : string -> outcome (response (list stream_item)).
Variable clock : nat -> Q.

Local Abbreviation read_body := (read_body clock).
Local Abbreviation attempt := (attempt urlparse session_get clock).
Local Abbreviation try_schemes := (try_schemes urlparse session_get clock).
Local Abbreviation test_mirror_speed :=
  (test_mirror_speed urljoin urlparse session_get clock).

Ltac run_monad :=
  unfold bind, lift, ret, raise, time_time, get, try_except in *; simpl in *.

Ltac bounds := unfold download_limit, chunk_size in *; lia.

(** Reading the body makes no request. *)
Lemma read_body_requests (start : Q) (items : list stream_item) :
  forall total w, requests (snd (read_body start items total w)) = requests w.
Proof.
  induction items as [|[c|] items IH]; intros total w; simpl; try reflexivity.
  destruct (nonempty c); [|apply IH].
  destruct (download_limit <=? _)%Z; [reflexivity|].
  run_monad. destruct (Qltb timeout _); [reflexivity|].
  rewrite IH. reflexivity.
Qed.

(** The count only grows, and it passes the limit by less than a chunk. *)
Lemma read_body_bound (start : Q) (items : list stream_item) :
  Forall chunk_ok items ->
  forall total w t w',
    (0 <= total < download_limit)%Z ->
    read_body start items total w = (Ret t, w') ->
    (total <= t < download_limit + chunk_size)%Z.
Proof.
  induction 1 as [|[c|] items Hc _ IH]; intros total w t w' Ht; simpl.
  - run_monad. intros [= <- _]. bounds.
  - destruct (nonempty c); [|now apply IH].
    unfold chunk_ok in Hc.
    destruct (Z.leb_spec download_limit (total + Z.of_nat (List.length c)))
      as [Hge|Hlt].
    + run_monad. intros [= <- _]. bounds.
    + run_monad. destruct (Qltb timeout _).
      * intros [= <- _]. bounds.
      * intros R. apply IH in R; bounds.
  - run_monad. discriminate.
Qed.

(** A body that comes in chunks of exactly [chunk_size] bytes is counted
    in multiples of it, and the count stops at the limit. *)
Lemma read_body_full_chunks (start : Q) (items : list stream_item) :
  Forall (fun it =>
            match it with
            | Chunk c => Z.of_nat (List.length c) = chunk_size
            | StreamError => True
            end) items ->
  forall total w t w',
    (0 <= total < download_limit)%Z ->
    (chunk_size | total)%Z ->
    read_body start items total w = (Ret t, w') ->
    (t <= download_limit)%Z /\ (chunk_size | t)%Z.
Proof.
  induction 1 as [|[c|] items Hc _ IH]; intros total w t w' Ht Hd; simpl.
  - run_monad. intros [= <- _]. split; [bounds | exact Hd].
  - destruct (nonempty c); [|now apply IH].
    assert ((total + Z.of_nat (List.length c) <= download_limit)%Z
            /\ (chunk_size | total + Z.of_nat (List.length c))%Z) as [Hle Hd'].
    { rewrite Hc. destruct Hd as [k Hk]. split.
      - bounds.
      - exists (k + 1)%Z. lia. }
    destruct (Z.leb_spec download_limit (total + Z.of_nat (List.length c)))
      as [Hge|Hlt].
    + run_monad. intros [= <- _]. auto.
    + run_monad. destruct (Qltb timeout _).
      * intros [= <- _]. auto.
      * intros R. apply IH in R; auto. bounds.
  - run_monad. discriminate.
Qed.

(** What a successful attempt went through. *)
Lemma attempt_success (mirror url scheme : string) (w w' : world)
    (b : string) (sp : Q) :
  attempt mirror url scheme w = (Ret (Some (b, sp)), w') ->
  exists p resp total w1,
    urlparse url = Ret p
    /\ session_get (target scheme p) = Ret resp
    /\ raise_for_status resp = Ret tt
    /\ read_body (clock (ticks w)) (content resp) 0
         (mkWorld (S (ticks w)) (requests w ++ [target scheme p]))
       = (Ret total, w1)
    /\ Qltb 0 (clock (ticks w1) - clock (ticks w)) = true
    /\ (0 <? total)%Z = true
    /\ b = base_url mirror
    /\ sp = speed_of total (clock (ticks w1) - clock (ticks w))
    /\ w' = mkWorld (S (ticks w1)) (requests w1).
Proof.
  unfold Tester.attempt, test_url_of. run_monad.
  destruct (urlparse url) as [p|]; [|discriminate].
  destruct (session_get _) as [resp|] eqn:G; [|discriminate].
  destruct (raise_for_status resp) as [[]|] eqn:S; [|discriminate].
  destruct (read_body _ _ _ _) as [[total|] w1] eqn:R; [|discriminate].
  destruct (Qltb 0 _) eqn:D; simpl; [|discriminate].
  destruct (0 <? total)%Z eqn:T; simpl; [|discriminate].
  intros [= <- <- <-].
  exists p, resp, total, w1. repeat split; auto.
Qed.

(** An attempt requests its URL once, when [urlparse] gives one. *)
Lemma attempt_requests (mirror url scheme : string) (p : parse_result)
    (w : world) :
  urlparse url = Ret p ->
  requests (snd (attempt mirror url scheme w))
  = requests w ++ [target scheme p].
Proof.
  intros P. unfold Tester.attempt, test_url_of. rewrite P. run_monad.
  destruct (session_get _) as [resp|]; [|reflexivity].
  destruct (raise_for_status resp) as [[]|]; [|reflexivity].
  match goal with
  | |- context [read_body ?s ?i ?t ?w0] =>
      generalize (read_body_requests s i t w0);
      destruct (read_body s i t w0) as [[total|] w1]
  end; simpl; intros ->; [|reflexivity].
  destruct (Qltb 0 _ && _); reflexivity.
Qed.

(** The loop over the schemes catches whatever an attempt raises. *)
Lemma try_schemes_returns (mirror url : string) (l : list string) :
  forall w, exists r w', try_schemes mirror url l w = (Ret r, w').
Proof.
  induction l as [|scheme l IH]; intros w; simpl.
  - now exists (None, 0%Q), w.
  - run_monad.
    destruct (attempt mirror url scheme w) as [[[[b sp]|]|] w1].
    + now exists (Some b, sp), w1.
    + apply IH.
    + apply IH.
Qed.

(** A result of the loop is the result of one attempt. *)
Lemma try_schemes_success (mirror url : string) (l : list string) :
  forall w w' b sp,
    try_schemes mirror url l w = (Ret (Some b, sp), w') ->
    exists scheme w0,
      In scheme l /\ attempt mirror url scheme w0 = (Ret (Some (b, sp)), w').
Proof.
  induction l as [|scheme l IH]; intros w w' b sp; simpl.
  - run_monad. discriminate.
  - run_monad.
    destruct (attempt mirror url scheme w) as [[[[b1 sp1]|]|] w1] eqn:A.
    + intros [= <- <- <-]. exists scheme, w. auto.
    + intros R. destruct (IH _ _ _ _ R) as (s & w0 & Hin & Ha).
      exists s, w0. auto.
    + intros R. destruct (IH _ _ _ _ R) as (s & w0 & Hin & Ha).
      exists s, w0. auto.
Qed.

(** When no attempt gives a sample, the loop ends in [(None, 0)]. *)
Lemma try_schemes_no_result (mirror url : string) (l : list string) :
  (forall scheme w0,
      In scheme l ->
      fst (attempt mirror url scheme w0) = Raise
      \/ fst (attempt mirror url scheme w0) = Ret None) ->
  forall w, fst (try_schemes mirror url l w) = Ret (None, 0%Q).
Proof.
  induction l as [|scheme l IH]; intros Hfail w; simpl; [reflexivity|].
  run_monad.
  destruct (Hfail scheme w (or_introl eq_refl)) as [F|F];
    destruct (attempt mirror url scheme w) as [[[[b sp]|]|] w1];
    simpl in F; try discriminate; apply IH; intros; apply Hfail; now right.
Qed.

(** A successful probe is a successful attempt on the joined URL. *)
Lemma test_mirror_speed_success (mirror test_file : string) (w w' : world)
    (b : string) (sp : Q) :
  test_mirror_speed mirror test_file w = (Ret (Some b, sp), w') ->
  exists url scheme w0,
    urljoin mirror test_file = Ret url
    /\ In scheme (schemes mirror)
    /\ attempt mirror url scheme w0 = (Ret (Some (b, sp)), w').
Proof.
  unfold Tester.test_mirror_speed. run_monad.
  destruct (urljoin mirror test_file) as [url|]; [|discriminate].
  intros R. apply try_schemes_success in R as (s & w0 & Hin & Ha).
  exists url, s, w0. auto.
Qed.

(** A scheme that fails in the state of its attempt gives no sample. *)
Lemma attempt_fails (mirror url scheme : string) (p : parse_result)
    (w : world) :
  urlparse url = Ret p ->
  scheme_fails session_get clock (target scheme p) w ->
  fst (attempt mirror url scheme w) = Raise
  \/ fst (attempt mirror url scheme w) = Ret None.
Proof.
  intros P Hfail. unfold Tester.attempt, test_url_of. rewrite P. run_monad.
  destruct Hfail as [G|(resp & G & [S|B])]; rewrite G; simpl; auto.
  - rewrite S. auto.
  - destruct (raise_for_status resp) as [[]|]; simpl; auto.
    destruct (Tester.read_body clock _ _ _ _) as [[total|] w1]; simpl; auto.
    right. destruct B as [T|D].
    + apply Z.ltb_ge in T. rewrite T. now rewrite andb_false_r.
    + unfold Qltb. apply Qle_bool_iff in D. now rewrite D.
Qed.

(** An attempt that gives no sample failed in one of these ways. *)
Lemma attempt_no_sample (mirror url scheme : string) (p : parse_result)
    (w : world) :
  urlparse url = Ret p ->
  fst (attempt mirror url scheme w) = Raise
  \/ fst (attempt mirror url scheme w) = Ret None ->
  scheme_fails session_get clock (target scheme p) w.
Proof.
  intros P. unfold Tester.attempt, test_url_of, scheme_fails.
  rewrite P. run_monad.
  destruct (session_get (target scheme p)) as [resp|]; [|now left].
  intros H. right. exists resp. split; [reflexivity|].
  destruct (raise_for_status resp) as [[]|]; [right | now left].
  simpl in H.
  destruct (Tester.read_body clock _ _ _ _) as [[total|] w1]; [|exact I].
  simpl in H.
  destruct (Qltb 0 (clock (ticks w1) - clock (ticks w))) eqn:D;
    simpl in H.
  - destruct (0 <? total)%Z eqn:T; simpl in H.
    + destruct H; discriminate.
    + left. now apply Z.ltb_ge.
  - right. unfold Qltb in D. apply Qle_bool_iff.
    now destruct (Qle_bool (clock (ticks w1) - clock (ticks w)) 0).
Qed.

(** Two schemes give [(None, 0)] when both attempts give no sample, the
    second in the state the first leaves, and only then. *)
Lemma try_two_no_result (mirror url s1 s2 : string) (w : world) :
  ((fst (attempt mirror url s1 w) = Raise
    \/ fst (attempt mirror url s1 w) = Ret None)
   /\ (fst (attempt mirror url s2 (snd (attempt mirror url s1 w))) = Raise
       \/ fst (attempt mirror url s2 (snd (attempt mirror url s1 w)))
          = Ret None))
  <-> fst (try_schemes mirror url [s1; s2] w) = Ret (None, 0%Q).
Proof.
  simpl. run_monad.
  destruct (attempt mirror url s1 w) as [[[[b sp]|]|] w1]; simpl.
  - split; [intros [[H|H] _]; discriminate | discriminate].
  - destruct (attempt mirror url s2 w1) as [[[[b sp]|]|] w2]; simpl.
    + split; [intros [_ [H|H]]; discriminate | discriminate].
    + split; auto.
    + split; auto.
  - destruct (attempt mirror url s2 w1) as [[[[b sp]|]|] w2]; simpl.
    + split; [intros [_ [H|H]]; discriminate | discriminate].
    + split; auto.
    + split; auto.
Qed.

Lemma attempt_parse_error (mirror url scheme : string) (w : world) :
  urlparse url = Raise -> fst (attempt mirror url scheme w) = Raise.
Proof.
  intros P. unfold Tester.attempt, test_url_of. rewrite P. reflexivity.
Qed.

(** Two schemes: the second is requested when the first gave no sample,
    and only then. *)
Lemma try_two (mirror url s1 s2 : string) (p : parse_result) (w : world) :
  urlparse url = Ret p ->
  (exists b sp,
      fst (try_schemes mirror url [s1; s2] w) = Ret (Some b, sp)
      /\ fst (attempt mirror url s1 w) = Ret (Some (b, sp))
      /\ requests (snd (try_schemes mirror url [s1; s2] w))
         = requests w ++ [target s1 p])
  \/ ((fst (attempt mirror url s1 w) = Raise
       \/ fst (attempt mirror url s1 w) = Ret None)
      /\ requests (snd (try_schemes mirror url [s1; s2] w))
         = requests w ++ [target s1 p; target s2 p]).
Proof.
  intros P.
  pose proof (attempt_requests mirror url s1 p w P) as R1.
  simpl. run_monad.
  destruct (attempt mirror url s1 w) as [[[[b sp]|]|] w1]; simpl in *.
  - left. exists b, sp. auto.
  - right. split; [auto|].
    pose proof (attempt_requests mirror url s2 p w1 P) as R2.
    destruct (attempt mirror url s2 w1) as [[[[b sp]|]|] w2]; simpl in *;
      rewrite R2, R1, <- app_assoc; reflexivity.
  - right. split; [auto|].
    pose proof (attempt_requests mirror url s2 p w1 P) as R2.
    destruct (attempt mirror url s2 w1) as [[[[b sp]|]|] w2]; simpl in *;
      rewrite R2, R1, <- app_assoc; reflexivity.
Qed.

End Probe.

End ProbeFacts.

(* ================================================================== *)
(** * The probe: scheme order, byte count, speed and base URL *)
(* ================================================================== *)

Local Open Scope list_scope.

(** C1 (as the code has it): for a candidate that starts with [http://]
    the probe requests the [https] URL first and the [http] URL second;
    for any other candidate it requests [http] first and [https] second.
    When the attempt on the first scheme gives a sample, that sample is
    the result and the first URL is the only one requested; the second
    URL is requested when the first attempt raised or gave no sample,
    and only then. *)
Theorem probe_scheme_order
    (urljoin : string -> string -> outcome string)
    (urlparse : string -> outcome parse_result)
    (session_get : string -> outcome (response (list stream_item)))
    (clock : nat -> Q) (mirror test_file url : string) (p : parse_result)
    (w : world) :
  urljoin mirror test_file = Ret url ->
  urlparse url = Ret p ->
  exists first second,
    (first, second)
    = (if PyStr.startswith mirror "http://" then ("https", "http")
       else ("http", "https"))
    /\ Tester.schemes mirror = [first; second]
    /\ let res :=
         Tester.test_mirror_speed urljoin urlparse session_get clock
           mirror test_file w in
       let tried :=
         fst (Tester.attempt urlparse session_get clock mirror url first w)
       in
       ((exists b sp,
            fst res = Ret (Some b, sp) /\ tried = Ret (Some (b, sp)))
        /\ requests (snd res) = requests w ++ [Tester.target first p])
       \/ ((tried = Raise \/ tried = Ret None)
           /\ requests (snd res)
              = requests w
                ++ [Tester.target first p; Tester.target second p]).
Proof.
  intros J P.
  assert (forall s1 s2, Tester.schemes mirror = [s1; s2] ->
    let res := Tester.test_mirror_speed urljoin urlparse session_get clock
                 mirror test_file w in
    let tried :=
      fst (Tester.attempt urlparse session_get clock mirror url s1 w) in
    ((exists b sp,
         fst res = Ret (Some b, sp) /\ tried = Ret (Some (b, sp)))
     /\ requests (snd res) = requests w ++ [Tester.target s1 p])
    \/ ((tried = Raise \/ tried = Ret None)
        /\ requests (snd res)
           = requests w ++ [Tester.target s1 p; Tester.target s2 p]))
    as Hrun.
  { intros s1 s2 Hs. unfold Tester.test_mirror_speed, bind, lift.
    rewrite J, Hs.
    destruct (ProbeFacts.try_two urlparse session_get clock
                mirror url s1 s2 p w P)
      as [(b & sp & Hres & Hfirst & Hreq)|[Hfirst Hreq]].
    - left. split; [now exists b, sp | exact Hreq].
    - right. split; [exact Hfirst | exact Hreq]. }
  unfold Tester.schemes in *.
  destruct (PyStr.startswith mirror "http://").
  - exists "https", "http". repeat split. now apply Hrun.
  - exists "http", "https". repeat split. now apply Hrun.
Qed.

Lemma probe_scheme_order_witness :
  exists first second,
    (first, second) = ("https", "http")
    /\ Tester.schemes "http://ftp.debian.org/debian/" = [first; second]
    /\ let res :=
         Tester.test_mirror_speed UrlLib.urljoin UrlLib.urlparse
           Samples.https_only Samples.half_clock
           "http://ftp.debian.org/debian/" Samples.amd64_file world0 in
       let tried :=
         fst (Tester.attempt UrlLib.urlparse Samples.https_only
                Samples.half_clock "http://ftp.debian.org/debian/"
                "http://ftp.debian.org/debian/dists/stable/main/binary-amd64/Packages.gz"
                first world0) in
       ((exists b sp,
            fst res = Ret (Some b, sp) /\ tried = Ret (Some (b, sp)))
        /\ requests (snd res)
           = requests world0
             ++ [Tester.target first
                   (mkParse "ftp.debian.org"
                      "/debian/dists/stable/main/binary-amd64/Packages.gz")])
       \/ ((tried = Raise \/ tried = Ret None)
           /\ requests (snd res)
              = requests world0
                ++ [Tester.target first
                      (mkParse "ftp.debian.org"
                         "/debian/dists/stable/main/binary-amd64/Packages.gz");
                    Tester.target second
                      (mkParse "ftp.debian.org"
                         "/debian/dists/stable/main/binary-amd64/Packages.gz")]).
Proof.
  apply (probe_scheme_order UrlLib.urljoin UrlLib.urlparse
           Samples.https_only Samples.half_clock
           "http://ftp.debian.org/debian/" Samples.amd64_file
           "http://ftp.debian.org/debian/dists/stable/main/binary-amd64/Packages.gz"
           (mkParse "ftp.debian.org"
              "/debian/dists/stable/main/binary-amd64/Packages.gz")
           world0); reflexivity.
Defined.

(** C1 as the specification words it fails on the candidate
    [http://ftp.debian.org/debian/]: its own scheme is plain HTTP, and
    the probe requests the HTTPS URL first. *)
Lemma scheme_order_counterexample :
  Spec.scheme_order "http://ftp.debian.org/debian/" = ["http"; "https"]
  /\ Tester.schemes "http://ftp.debian.org/debian/" = ["https"; "http"]
  /\ Tester.schemes "http://ftp.debian.org/debian/"
     <> Spec.scheme_order "http://ftp.debian.org/debian/"
  /\ requests
       (snd (Tester.test_mirror_speed UrlLib.urljoin UrlLib.urlparse
               Samples.no_network Samples.half_clock
               "http://ftp.debian.org/debian/" Samples.amd64_file world0))
     = [ "https://ftp.debian.org/debian/dists/stable/main/binary-amd64/Packages.gz";
         "http://ftp.debian.org/debian/dists/stable/main/binary-amd64/Packages.gz" ].
Proof.
  repeat split; try reflexivity. discriminate.
Qed.

(** C4 (as the code has it): the count is compared with the limit after a
    whole chunk has been added, so the count the loop ends with can pass
    [download_limit]; when no chunk has more than [chunk_size] bytes it is
    at most [download_limit + chunk_size - 1], that is 589823. *)
Theorem read_body_count_bound (clock : nat -> Q) (start_time : Q)
    (items : list stream_item) (w w' : world) (total_size : Z) :
  Forall Spec.chunk_ok items ->
  Tester.read_body clock start_time items 0 w = (Ret total_size, w') ->
  (0 <= total_size
   <= Tester.download_limit + Tester.chunk_size - 1)%Z
  /\ (total_size <= 589823)%Z.
Proof.
  intros Hok R.
  apply (ProbeFacts.read_body_bound clock start_time items Hok) in R.
  - unfold Tester.download_limit, Tester.chunk_size in *. lia.
  - unfold Tester.download_limit. lia.
Qed.

Lemma read_body_count_bound_witness :
  (0 <= 589815 <= Tester.download_limit + Tester.chunk_size - 1)%Z
  /\ (589815 <= 589823)%Z.
Proof.
  apply (read_body_count_bound Samples.centi_clock (Samples.centi_clock 0)
           (List.repeat (Chunk (Samples.bytes 65535)) 12)
           (mkWorld 1 []) (mkWorld 9 [])).
  - repeat constructor; vm_compute; discriminate.
  - vm_compute. reflexivity.
Defined.

(** C4 as the specification words it fails on a body sent in chunks of
    65535 bytes: after eight chunks the count is 524280, below the limit
    of 524288, and the ninth chunk makes it 589815. *)
Lemma byte_count_counterexample :
  Tester.read_body Samples.centi_clock (Samples.centi_clock 0)
    (List.repeat (Chunk (Samples.bytes 65535)) 12) 0 (mkWorld 1 [])
  = (Ret 589815%Z, mkWorld 9 [])
  /\ (Tester.download_limit < 589815)%Z
  /\ fst (Tester.test_mirror_speed UrlLib.urljoin UrlLib.urlparse
            Samples.short_chunks Samples.centi_clock
            "http://ftp.debian.org/debian/" Samples.amd64_file world0)
     = Ret (Some "http://ftp.debian.org/debian/",
            Tester.speed_of 589815
              (Samples.centi_clock 9 - Samples.centi_clock 0)).
Proof.
  repeat split; vm_compute; reflexivity.
Qed.

Lemma Qltb_lt (a b : Q) : Qltb a b = true -> (a < b)%Q.
Proof.
  unfold Qltb. intros H. apply Qnot_le_lt. intros L.
  apply Qle_bool_iff in L. rewrite L in H. discriminate.
Qed.

Lemma speed_of_scale (total_size : Z) (duration : Q) :
  (0 < duration)%Q ->
  (Tester.speed_of total_size duration * (1024 * 1024)
   == Spec.bytes_per_second total_size duration)%Q.
Proof.
  intros D. unfold Tester.speed_of, Spec.bytes_per_second.
  field. intros E. rewrite E in D. now apply Qlt_irrefl in D.
Qed.

(** C3 (as the code has it): the speed of a successful probe is the count
    of bytes read, divided by the seconds between the first and the last
    reading of the clock of the successful attempt, divided by 1024 twice:
    it is in MiB per second, and 1048576 times it is the bytes per
    second. *)
Theorem probe_speed_mib_per_second
    (urljoin : string -> string -> outcome string)
    (urlparse : string -> outcome parse_result)
    (session_get : string -> outcome (response (list stream_item)))
    (clock : nat -> Q) (mirror test_file : string) (w w' : world)
    (b : string) (speed : Q) :
  Tester.test_mirror_speed urljoin urlparse session_get clock
    mirror test_file w = (Ret (Some b, speed), w') ->
  exists url scheme p resp w0 total_size w1,
    urljoin mirror test_file = Ret url
    /\ In scheme (Tester.schemes mirror)
    /\ urlparse url = Ret p
    /\ session_get (Tester.target scheme p) = Ret resp
    /\ Tester.read_body clock (clock (ticks w0)) (content resp) 0
         (mkWorld (S (ticks w0)) (requests w0 ++ [Tester.target scheme p]))
       = (Ret total_size, w1)
    /\ let duration := (clock (ticks w1) - clock (ticks w0))%Q in
       (0 < total_size)%Z
       /\ (0 < duration)%Q
       /\ speed = (inject_Z total_size / duration / 1024 / 1024)%Q
       /\ (speed * (1024 * 1024)
           == Spec.bytes_per_second total_size duration)%Q.
Proof.
  intros R.
  apply ProbeFacts.test_mirror_speed_success in R
    as (url & scheme & w0 & J & Hin & A).
  apply ProbeFacts.attempt_success in A
    as (p & resp & total & w1 & P & G & _ & B & D & T & _ & -> & _).
  exists url, scheme, p, resp, w0, total, w1.
  apply Qltb_lt in D. apply Z.ltb_lt in T.
  repeat split; auto. now apply speed_of_scale.
Qed.

Lemma probe_speed_mib_per_second_witness :
  exists url scheme p resp w0 total_size w1,
    UrlLib.urljoin "http://ftp.debian.org/debian/" Samples.amd64_file
    = Ret url
    /\ In scheme (Tester.schemes "http://ftp.debian.org/debian/")
    /\ UrlLib.urlparse url = Ret p
    /\ Samples.https_only (Tester.target scheme p) = Ret resp
    /\ Tester.read_body Samples.half_clock (Samples.half_clock (ticks w0))
         (content resp) 0
         (mkWorld (S (ticks w0)) (requests w0 ++ [Tester.target scheme p]))
       = (Ret total_size, w1)
    /\ let duration :=
         (Samples.half_clock (ticks w1) - Samples.half_clock (ticks w0))%Q in
       (0 < total_size)%Z
       /\ (0 < duration)%Q
       /\ Tester.speed_of 65536 (Samples.half_clock 2 - Samples.half_clock 0)
          = (inject_Z total_size / duration / 1024 / 1024)%Q
       /\ (Tester.speed_of 65536 (Samples.half_clock 2 - Samples.half_clock 0)
           * (1024 * 1024)
           == Spec.bytes_per_second total_size duration)%Q.
Proof.
  apply (probe_speed_mib_per_second UrlLib.urljoin UrlLib.urlparse
           Samples.https_only Samples.half_clock
           "http://ftp.debian.org/debian/" Samples.amd64_file world0
           (mkWorld 3
              ["https://ftp.debian.org/debian/dists/stable/main/binary-amd64/Packages.gz"])
           "http://ftp.debian.org/debian/").
  vm_compute. reflexivity.
Defined.

(** C3 as the specification words it fails on a probe that reads 65536
    bytes in one second: the speed returned is 1/16 (MiB per second),
    and the bytes per second are 65536. *)
Lemma speed_unit_counterexample :
  exists speed w',
    Tester.test_mirror_speed UrlLib.urljoin UrlLib.urlparse
      Samples.https_only Samples.half_clock
      "http://ftp.debian.org/debian/" Samples.amd64_file world0
    = (Ret (Some "http://ftp.debian.org/debian/", speed), w')
    /\ (speed == 1 # 16)%Q
    /\ (Spec.bytes_per_second 65536
          (Samples.half_clock 2 - Samples.half_clock 0) == 65536)%Q
    /\ ~ (speed
          == Spec.bytes_per_second 65536
               (Samples.half_clock 2 - Samples.half_clock 0))%Q.
Proof.
  eexists. eexists. split; [vm_compute; reflexivity|].
  repeat split; try reflexivity. intros H. vm_compute in H. discriminate.
Qed.

(** C5 (as the code has it): the base URL of a successful probe is
    computed from the candidate string alone, whichever scheme gave the
    sample: with [/debian/] in the candidate, the candidate up to the end
    of its first [/debian/]; without it, the candidate without its last
    four [/]-separated segments (without all that follow its first [/]
    when it has fewer than four). *)
Theorem probe_base_url_of_candidate
    (urljoin : string -> string -> outcome string)
    (urlparse : string -> outcome parse_result)
    (session_get : string -> outcome (response (list stream_item)))
    (clock : nat -> Q) (mirror test_file : string) (w w' : world)
    (b : string) (speed : Q) :
  Tester.test_mirror_speed urljoin urlparse session_get clock
    mirror test_file w = (Ret (Some b, speed), w') ->
  b = Tester.base_url mirror
  /\ (PyStr.contains "/debian/" mirror = true ->
      exists pre post,
        mirror = (pre ++ "/debian/" ++ post)%string
        /\ (forall j, PyStr.occurs_at "/debian/" mirror j ->
                      String.length pre <= j)
        /\ b = (pre ++ "/debian/")%string)
  /\ (PyStr.contains "/debian/" mirror = false ->
      exists tail,
        mirror = (b ++ tail)%string
        /\ PyStr.count "/" tail = Nat.min 4 (PyStr.count "/" mirror)
        /\ (tail = ""%string \/ PyStr.startswith tail "/" = true)).
Proof.
  intros R.
  apply ProbeFacts.test_mirror_speed_success in R
    as (url & scheme & w0 & _ & _ & A).
  apply ProbeFacts.attempt_success in A
    as (_ & _ & _ & _ & _ & _ & _ & _ & _ & _ & -> & _).
  split; [reflexivity|]. split.
  - apply BaseUrlFacts.base_url_marker.
  - apply BaseUrlFacts.base_url_fallback.
Qed.

Lemma probe_base_url_of_candidate_witness :
  "http://ftp.debian.org/debian/"%string
  = Tester.base_url "http://ftp.debian.org/debian/"
  /\ (PyStr.contains "/debian/" "http://ftp.debian.org/debian/" = true ->
      exists pre post,
        "http://ftp.debian.org/debian/"%string
        = (pre ++ "/debian/" ++ post)%string
        /\ (forall j,
              PyStr.occurs_at "/debian/" "http://ftp.debian.org/debian/" j ->
              String.length pre <= j)
        /\ "http://ftp.debian.org/debian/"%string
           = (pre ++ "/debian/")%string)
  /\ (PyStr.contains "/debian/" "http://ftp.debian.org/debian/" = false ->
      exists tail,
        "http://ftp.debian.org/debian/"%string
        = ("http://ftp.debian.org/debian/" ++ tail)%string
        /\ PyStr.count "/" tail
           = Nat.min 4 (PyStr.count "/" "http://ftp.debian.org/debian/")
        /\ (tail = ""%string \/ PyStr.startswith tail "/" = true)).
Proof.
  apply (probe_base_url_of_candidate UrlLib.urljoin UrlLib.urlparse
           Samples.https_only Samples.half_clock
           "http://ftp.debian.org/debian/" Samples.amd64_file world0
           (mkWorld 3
              ["https://ftp.debian.org/debian/dists/stable/main/binary-amd64/Packages.gz"])
           "http://ftp.debian.org/debian/"
           (Tester.speed_of 65536
              (Samples.half_clock 2 - Samples.half_clock 0))).
  vm_compute. reflexivity.
Defined.

(** C5 as the specification words it fails on the candidate
    [http://ftp.debian.org/debian/] served over HTTPS only: the request
    that succeeds is the HTTPS one, whose URL cut after [/debian/] is
    [https://ftp.debian.org/debian/], and the probe returns the candidate
    with its own scheme, [http://ftp.debian.org/debian/]. *)
Lemma base_url_counterexample :
  exists speed w',
    Tester.test_mirror_speed UrlLib.urljoin UrlLib.urlparse
      Samples.https_only Samples.half_clock
      "http://ftp.debian.org/debian/" Samples.amd64_file world0
    = (Ret (Some "http://ftp.debian.org/debian/"%string, speed), w')
    /\ requests w'
       = [ "https://ftp.debian.org/debian/dists/stable/main/binary-amd64/Packages.gz"%string ]
    /\ Tester.base_url
         "https://ftp.debian.org/debian/dists/stable/main/binary-amd64/Packages.gz"
       = "https://ftp.debian.org/debian/"%string
    /\ "http://ftp.debian.org/debian/"%string
       <> Tester.base_url
            "https://ftp.debian.org/debian/dists/stable/main/binary-amd64/Packages.gz".
Proof.
  eexists. eexists. split; [vm_compute; reflexivity|].
  repeat split; try reflexivity. vm_compute. discriminate.
Qed.

(* ================================================================== *)
(** * The mirror list *)
(* ================================================================== *)

Module DictFacts.

Import PyDict Spec.

Lemma keys_set {V : Type} (k : string) (v : V) (d : dict V) :
  keys (set k v d)
  = if existsb (String.eqb k) (keys d) then keys d else keys d ++ [k].
Proof.
  induction d as [|[k' v'] d IH]; simpl; [reflexivity|].
  rewrite (String.eqb_sym k k').
  destruct (String.eqb k' k); simpl; [reflexivity|].
  unfold keys in *. rewrite IH.
  destruct (existsb (String.eqb k) (map fst d)); reflexivity.
Qed.

Lemma filter_seen (x : string) (ks m : list string) :
  existsb (String.eqb x) ks = true ->
  filter (notin ks) (filter (fun y => negb (String.eqb y x)) m)
  = filter (notin ks) m.
Proof.
  intros Hx. induction m as [|y m IH]; simpl; [reflexivity|].
  destruct (String.eqb_spec y x) as [->|Hne]; simpl.
  - unfold notin at 2. rewrite Hx. simpl. exact IH.
  - now rewrite IH.
Qed.

Lemma filter_new (x : string) (ks m : list string) :
  filter (notin (ks ++ [x])) m
  = filter (notin ks) (filter (fun y => negb (String.eqb y x)) m).
Proof.
  induction m as [|y m IH]; simpl; [reflexivity|].
  unfold notin at 1. rewrite existsb_app. simpl. rewrite orb_false_r.
  destruct (String.eqb y x); simpl.
  - rewrite orb_true_r. simpl. exact IH.
  - rewrite orb_false_r. fold (notin ks y).
    destruct (notin ks y); now rewrite IH.
Qed.

(** Assigning the keys of [l] in turn to a dictionary appends, in the
    order of their first occurrences, those it does not have. *)
Lemma keys_fold (l : list string) :
  forall d : dict unit,
    keys (fold_left (fun d k => set k tt d) l d)
    = keys d ++ filter (notin (keys d)) (first_occurrences l).
Proof.
  induction l as [|x l IH]; intros d; cbn [fold_left first_occurrences filter].
  - now rewrite app_nil_r.
  - rewrite IH, keys_set.
    destruct (existsb (String.eqb x) (keys d)) eqn:E.
    + assert (notin (keys d) x = false) as -> by (unfold notin; now rewrite E).
      now rewrite filter_seen.
    + assert (notin (keys d) x = true) as -> by (unfold notin; now rewrite E).
      now rewrite <- app_assoc, filter_new.
Qed.

Lemma unique_first_occurrences (l : list string) :
  Tester.unique l = first_occurrences l.
Proof.
  unfold Tester.unique, fromkeys. rewrite keys_fold. simpl.
  induction (first_occurrences l) as [|y m IH]; simpl; [reflexivity|].
  now rewrite IH.
Qed.

Lemma first_occurrences_In (l : list string) (x : string) :
  In x (first_occurrences l) <-> In x l.
Proof.
  induction l as [|a l IH]; simpl; [tauto|].
  rewrite filter_In, IH.
  destruct (String.eqb_spec x a) as [->|Hne]; simpl.
  - split; auto.
  - split.
    + intros [H|[H _]]; auto.
    + intros [H|H]; [congruence | auto].
Qed.

Lemma first_occurrences_NoDup (l : list string) :
  NoDup (first_occurrences l).
Proof.
  induction l as [|a l IH]; simpl; constructor.
  - rewrite filter_In. intros [_ H]. now rewrite String.eqb_refl in H.
  - now apply NoDup_filter.
Qed.

(** Read from left to right: an entry is kept when it was not seen. *)
Lemma first_occurrences_snoc (l : list string) (x : string) :
  first_occurrences (l ++ [x])
  = first_occurrences l ++ (if existsb (String.eqb x) l then [] else [x]).
Proof.
  induction l as [|a l IH]; simpl; [reflexivity|].
  rewrite IH, filter_app. f_equal. f_equal.
  destruct (String.eqb_spec x a) as [->|Hne]; simpl.
  - destruct (existsb (String.eqb a) l); simpl;
      [reflexivity | now rewrite String.eqb_refl].
  - destruct (existsb (String.eqb x) l); simpl; [reflexivity|].
    destruct (String.eqb_spec x a); [contradiction | reflexivity].
Qed.

End DictFacts.

(* ================================================================== *)
(** * The scheduler and the report *)
(* ================================================================== *)

Module MainFacts.

Import PyStr Tester Spec.

Lemma get_mirrors_returns (listing : outcome (response soup)) :
  exists mirrors, get_mirrors listing = Ret mirrors.
Proof.
  unfold get_mirrors. destruct (get_mirrors_try listing); eauto.
Qed.

Lemma speed_file_found (machine : string) :
  exists test_file,
    PyDict.get speed_files (system_arch machine) = Some test_file.
Proof.
  unfold system_arch. destruct (startswith machine "aarch64"); simpl; eauto.
Qed.

Section Run.

Variable machine : string.
Variable urljoin : string -> string -> outcome string.
Variable urlparse : string -> outcome parse_result.
Variable session_get : string -> outcome (response (list stream_item)).
Variable clock : string -> nat -> Q.
Variable order : completion.
Variable format_2f : Q -> string.

(** One future for each mirror. *)
Lemma submit_all_returns (mirrors : list string) :
  exists futures,
    submit_all machine urljoin urlparse session_get clock mirrors
    = Ret futures
    /\ List.length futures = List.length mirrors.
Proof.
  induction mirrors as [|m mirrors (futures & IH & Hlen)];
    cbn [submit_all].
  - now exists [].
  - destruct (speed_file_found machine) as [f ->]. rewrite IH.
    eexists. split; [reflexivity|]. simpl. now rewrite Hlen.
Qed.

(** The bar moves once for each future, whatever it holds. *)
Lemma collect_all_pbar (l : list future) :
  forall d n, snd (fold_left collect l (d, n)) = n + List.length l.
Proof.
  induction l as [|f l IH]; intros d n; simpl; [lia|].
  match goal with
  | |- context [fold_left collect l (?d', S n)] => rewrite (IH d' (S n))
  end.
  lia.
Qed.

Lemma gather_pbar (futures : list future) :
  snd (gather order futures) = List.length futures.
Proof.
  unfold gather. rewrite collect_all_pbar. simpl.
  apply Permutation_length, as_completed_perm.
Qed.

Lemma gather_nil : gather order [] = ([], 0).
Proof.
  unfold gather.
  now rewrite (Permutation_nil (Permutation_sym (as_completed_perm order []))).
Qed.

(** [main] raises nothing, and what it leaves. *)
Lemma main_returns (listing : outcome (response soup)) :
  exists mirrors futures,
    get_mirrors listing = Ret mirrors
    /\ submit_all machine urljoin urlparse session_get clock mirrors
       = Ret futures
    /\ main machine listing urljoin urlparse session_get clock order format_2f
       = Ret (mkRun
                ([ (String "010" "Testing " ++ of_nat (List.length mirrors)
                    ++ " mirrors...")%string ]
                 ++ report format_2f (List.length mirrors)
                      (fst (gather order futures)))
                (List.length mirrors)
                (fst (gather order futures))).
Proof.
  destruct (get_mirrors_returns listing) as [mirrors Hm].
  destruct (submit_all_returns mirrors) as (futures & Hs & Hlen).
  exists mirrors, futures. repeat split; auto.
  unfold main. rewrite Hm, Hs.
  pose proof (gather_pbar futures) as Hp.
  destruct (gather order futures) as [d n]. simpl in *.
  now rewrite Hp, Hlen.
Qed.

End Run.

Lemma uint_no_newline (u : Decimal.uint) :
  count "010" (DecimalString.NilEmpty.string_of_uint u) = 0.
Proof. induction u; simpl; auto. Qed.

Lemma summary_no_newline (n k : nat) : count "010" (summary n k) = 0.
Proof.
  unfold summary, of_nat.
  rewrite !BaseUrlFacts.count_app, !uint_no_newline. reflexivity.
Qed.

Lemma cut_absent (sep : ascii) (s : string) :
  count sep s = 0 -> cut sep s = None.
Proof.
  induction s as [|a s IH]; simpl; [reflexivity|].
  destruct (Ascii.eqb a sep); simpl; [discriminate|].
  intros H. now rewrite IH.
Qed.

(** A [print] of a newline and a text without one shows an empty line and
    the text. *)
Lemma split_all_leading_newline (t : string) :
  count "010" t = 0 -> split_all "010" (String "010" t) = [""; t].
Proof.
  intros H. unfold split_all. simpl. f_equal.
  destruct (String.length t); simpl; [reflexivity|].
  now rewrite (cut_absent _ _ H).
Qed.

Lemma report_last_print (format_2f : Q -> string) (n : nat)
    (d : PyDict.dict Q) :
  exists before,
    report format_2f n d
    = before ++ [String "010" (summary n (PyDict.len d))].
Proof.
  unfold report. eexists. reflexivity.
Qed.

Lemma report_empty (format_2f : Q -> string) (n : nat) :
  report format_2f n []
  = [ String "010" "No working mirrors found";
      String "010" (summary n 0) ].
Proof. reflexivity. Qed.

End MainFacts.

(** C2 (as the code has it): when the request for the listing raises or
    its status is an error, [get_mirrors] catches the exception and
    returns the empty list; the run goes on with no candidate, tests
    nothing and ends with the report of a run that found no mirror. *)
Theorem get_mirrors_failure_is_empty (listing : outcome (response soup)) :
  (listing = Raise
   \/ exists r, listing = Ret r /\ raise_for_status r = Raise) ->
  Tester.get_mirrors listing = Ret []
  /\ forall machine urljoin urlparse session_get clock order format_2f,
       Tester.main machine listing urljoin urlparse session_get clock order
         format_2f
       = Ret (Tester.mkRun
                [ String "010" "Testing 0 mirrors...";
                  String "010" "No working mirrors found";
                  String "010" "Tested 0 mirrors, found 0 working" ]
                0 []).
Proof.
  intros H.
  assert (Tester.get_mirrors listing = Ret []) as G.
  { unfold Tester.get_mirrors, Tester.get_mirrors_try.
    destruct H as [->|(r & -> & ->)]; reflexivity. }
  split; [exact G|]. intros.
  unfold Tester.main. rewrite G. cbn [Tester.submit_all].
  rewrite MainFacts.gather_nil. reflexivity.
Qed.

Lemma get_mirrors_failure_is_empty_witness :
  Tester.get_mirrors (Ret (mkResponse 503 Samples.listing3)) = Ret []
  /\ forall machine urljoin urlparse session_get clock order format_2f,
       Tester.main machine (Ret (mkResponse 503 Samples.listing3))
         urljoin urlparse session_get clock order format_2f
       = Ret (Tester.mkRun
                [ String "010" "Testing 0 mirrors...";
                  String "010" "No working mirrors found";
                  String "010" "Tested 0 mirrors, found 0 working" ]
                0 []).
Proof.
  apply (get_mirrors_failure_is_empty (Ret (mkResponse 503 Samples.listing3))).
  right. exists (mkResponse 503 Samples.listing3). split; reflexivity.
Defined.

(** C2 as the specification words it fails when the request for the
    listing raises: no error comes out of [get_mirrors], which returns
    the empty list, and [main] runs to its end. *)
Lemma listing_error_counterexample :
  Tester.get_mirrors Raise = Ret []
  /\ Tester.get_mirrors Raise <> Raise
  /\ Tester.get_mirrors (Ret (mkResponse 404 Samples.listing3)) = Ret []
  /\ Tester.main "x86_64" Raise UrlLib.urljoin UrlLib.urlparse
       Samples.https_only (fun _ => Samples.half_clock) Samples.in_order
       Samples.no_format
     = Ret (Tester.mkRun
              [ String "010" "Testing 0 mirrors...";
                String "010" "No working mirrors found";
                String "010" "Tested 0 mirrors, found 0 working" ]
              0 []).
Proof.
  repeat split; try reflexivity. discriminate.
Qed.

(** C8: when the listing is fetched, [get_mirrors] returns the hrefs it
    extracted with the exact duplicates removed and the first occurrences
    in their order; no string is twice in the result, and the result has
    the strings of the extracted sequence.  Of three entries with one
    string twice, two are left. *)
Theorem get_mirrors_first_occurrences (r : response soup) :
  raise_for_status r = Ret tt ->
  let extracted := Tester.collect_hrefs (content r) [] in
  Tester.get_mirrors (Ret r) = Ret (Tester.unique extracted)
  /\ Tester.unique extracted = Spec.first_occurrences extracted
  /\ NoDup (Tester.unique extracted)
  /\ (forall x, In x (Tester.unique extracted) <-> In x extracted)
  /\ (forall l x,
        Tester.unique (l ++ [x])
        = Tester.unique l ++ (if existsb (String.eqb x) l then [] else [x]))
  /\ (forall a b,
        a <> b ->
        Tester.unique [a; b; a] = [a; b]
        /\ Tester.unique [a; a; b] = [a; b]
        /\ Tester.unique [a; b; b] = [a; b]).
Proof.
  intros S extracted.
  split; [|split; [|split; [|split; [|split]]]].
  - unfold Tester.get_mirrors, Tester.get_mirrors_try. now rewrite S.
  - apply DictFacts.unique_first_occurrences.
  - rewrite DictFacts.unique_first_occurrences.
    apply DictFacts.first_occurrences_NoDup.
  - intros x. rewrite DictFacts.unique_first_occurrences.
    apply DictFacts.first_occurrences_In.
  - intros l x. rewrite !DictFacts.unique_first_occurrences.
    apply DictFacts.first_occurrences_snoc.
  - intros a b Hab. rewrite !DictFacts.unique_first_occurrences.
    assert (String.eqb b a = false) as Hba
      by (apply String.eqb_neq; congruence).
    assert (String.eqb a b = false) as Hab'
      by (now apply String.eqb_neq).
    cbn [Spec.first_occurrences filter negb].
    repeat (rewrite ?String.eqb_refl, ?Hba, ?Hab'; cbn [filter negb]).
    auto.
Qed.

Lemma get_mirrors_first_occurrences_witness :
  let extracted :=
    Tester.collect_hrefs (content (mkResponse 200 Samples.listing3)) [] in
  Tester.get_mirrors (Ret (mkResponse 200 Samples.listing3))
  = Ret (Tester.unique extracted)
  /\ Tester.unique extracted = Spec.first_occurrences extracted
  /\ NoDup (Tester.unique extracted)
  /\ (forall x, In x (Tester.unique extracted) <-> In x extracted)
  /\ (forall l x,
        Tester.unique (l ++ [x])
        = Tester.unique l ++ (if existsb (String.eqb x) l then [] else [x]))
  /\ (forall a b,
        a <> b ->
        Tester.unique [a; b; a] = [a; b]
        /\ Tester.unique [a; a; b] = [a; b]
        /\ Tester.unique [a; b; b] = [a; b]).
Proof.
  apply (get_mirrors_first_occurrences (mkResponse 200 Samples.listing3)).
  reflexivity.
Defined.

Example listing3_candidates :
  Tester.get_mirrors (Ret (mkResponse 200 Samples.listing3))
  = Ret [ "http://ftp.debian.org/debian/"%string;
          "http://ftp.de.debian.org/debian/"%string ].
Proof. reflexivity. Qed.

(** C7: the loop over the schemes catches what an attempt raises, so a
    probe whose URL could be joined returns a pair and raises nothing;
    when [urlparse] raises, or each of the two schemes fails in the state
    in which its attempt runs (the request raises, the status is an
    error, the body raises, holds no byte or takes no time), the pair is
    [(None, 0)], and it is [(None, 0)] in these cases only.  The
    scheduler passes over a future that raised as over one that holds
    [(None, 0)], the results unchanged, and moves the bar by one for
    every future: at the end of [main] the bar is at the number of
    mirrors. *)
Theorem probe_failures_are_no_result
    (urljoin : string -> string -> outcome string)
    (urlparse : string -> outcome parse_result)
    (session_get : string -> outcome (response (list stream_item)))
    (clock : nat -> Q) (mirror test_file : string) (w : world) :
  (forall url,
      urljoin mirror test_file = Ret url ->
      exists r w',
        Tester.test_mirror_speed urljoin urlparse session_get clock
          mirror test_file w = (Ret r, w'))
  /\ (forall url,
        urljoin mirror test_file = Ret url ->
        exists first second,
          Tester.schemes mirror = [first; second]
          /\ (urlparse url = Raise ->
              fst (Tester.test_mirror_speed urljoin urlparse session_get
                     clock mirror test_file w) = Ret (None, 0%Q))
          /\ forall p,
              urlparse url = Ret p ->
              (Spec.scheme_fails session_get clock
                 (Tester.target first p) w
               /\ Spec.scheme_fails session_get clock
                    (Tester.target second p)
                    (snd (Tester.attempt urlparse session_get clock
                            mirror url first w))
               <-> fst (Tester.test_mirror_speed urljoin urlparse
                          session_get clock mirror test_file w)
                   = Ret (None, 0%Q)))
  /\ (forall (d : PyDict.dict Q) (n : nat),
        Tester.collect (d, n) Raise = (d, S n)
        /\ (forall x, Tester.collect (d, n) (Ret (None, x)) = (d, S n))
        /\ (forall f, snd (Tester.collect (d, n) f) = S n))
  /\ (forall machine listing clocks order format_2f,
        exists mirrors futures r,
          Tester.get_mirrors listing = Ret mirrors
          /\ Tester.submit_all machine urljoin urlparse session_get clocks
               mirrors = Ret futures
          /\ List.length futures = List.length mirrors
          /\ Tester.main machine listing urljoin urlparse session_get clocks
               order format_2f = Ret r
          /\ Tester.pbar r = List.length mirrors).
Proof.
  split; [|split; [|split]].
  - intros url J. unfold Tester.test_mirror_speed, bind, lift. rewrite J.
    apply ProbeFacts.try_schemes_returns.
  - intros url J.
    assert (exists first second, Tester.schemes mirror = [first; second])
      as (first & second & Hs).
    { unfold Tester.schemes.
      destruct (PyStr.startswith mirror "http://"); eauto. }
    exists first, second. split; [exact Hs|].
    unfold Tester.test_mirror_speed, bind, lift. rewrite J. split.
    + intros P. apply ProbeFacts.try_schemes_no_result.
      intros scheme w0 _. left. now apply ProbeFacts.attempt_parse_error.
    + intros p P. rewrite Hs.
      rewrite <- ProbeFacts.try_two_no_result. split.
      * intros [F1 F2]. split; eapply ProbeFacts.attempt_fails; eauto.
      * intros [F1 F2]. split; eapply ProbeFacts.attempt_no_sample; eauto.
  - intros d n. split; [reflexivity|]. split; reflexivity.
  - intros machine listing clocks order format_2f.
    destruct (MainFacts.main_returns machine urljoin urlparse session_get
                clocks order format_2f listing)
      as (mirrors & futures & G & S & M).
    destruct (MainFacts.submit_all_returns machine urljoin urlparse
                session_get clocks mirrors) as (futures' & S' & Hlen).
    rewrite S in S'. injection S' as <-.
    eexists mirrors, futures, _. repeat split; eauto.
Qed.

(** A run in which the two schemes fail in different ways: the HTTPS
    host sends ten bytes while the clock stands still, so the sample has
    no duration, and the HTTP request raises.  Both URLs are requested
    and the probe returns [(None, 0)]. *)
Example zero_duration_then_error :
  let session_get := fun url =>
    if PyStr.startswith url "https://"
    then Ret (mkResponse 200 [Chunk (Samples.bytes 10)])
    else Raise in
  let clock := fun n : nat =>
    if (n <=? 2)%nat then 0%Q else (Z.of_nat n # 1)%Q in
  Tester.test_mirror_speed UrlLib.urljoin UrlLib.urlparse session_get clock
    "http://ftp.debian.org/debian/" Samples.amd64_file world0
  = (Ret (None, 0%Q),
     mkWorld 4
       [ "https://ftp.debian.org/debian/dists/stable/main/binary-amd64/Packages.gz"%string;
         "http://ftp.debian.org/debian/dists/stable/main/binary-amd64/Packages.gz"%string ])
  /\ Spec.scheme_fails session_get clock
       "https://ftp.debian.org/debian/dists/stable/main/binary-amd64/Packages.gz"
       world0
  /\ Spec.scheme_fails session_get clock
       "http://ftp.debian.org/debian/dists/stable/main/binary-amd64/Packages.gz"
       (mkWorld 3
          [ "https://ftp.debian.org/debian/dists/stable/main/binary-amd64/Packages.gz"%string ]).
Proof.
  split; [vm_compute; reflexivity|]. split.
  - right. eexists. split; [reflexivity|]. right.
    vm_compute. right. discriminate.
  - left. reflexivity.
Qed.

(* ================================================================== *)
(** * The ranking *)
(* ================================================================== *)

Module SortFacts.

Import Tester Spec.

Lemma Qltb_false (a b : Q) : Qltb a b = false -> (b <= a)%Q.
Proof.
  unfold Qltb. intros H. apply Qle_bool_iff.
  now destruct (Qle_bool b a).
Qed.

Lemma Qltb_true (a b : Q) : Qltb a b = true -> (a <= b)%Q.
Proof.
  unfold Qltb. intros H. apply Qlt_le_weak, Qnot_le_lt. intros L.
  apply Qle_bool_iff in L. rewrite L in H. discriminate.
Qed.

Lemma insert_desc_perm (x : string * Q) (l : list (string * Q)) :
  Permutation (insert_desc x l) (x :: l).
Proof.
  induction l as [|y l IH]; simpl; [reflexivity|].
  destruct (Qltb (snd x) (snd y)); [|reflexivity].
  rewrite IH. apply perm_swap.
Qed.

Lemma sorted_desc_perm (l : list (string * Q)) :
  Permutation (sorted_desc l) l.
Proof.
  induction l as [|x l IH]; simpl; [reflexivity|].
  rewrite insert_desc_perm. now constructor.
Qed.

Lemma insert_desc_sorted (x : string * Q) (l : list (string * Q)) :
  StronglySorted at_least_as_fast l ->
  StronglySorted at_least_as_fast (insert_desc x l).
Proof.
  induction 1 as [|y l Hs IH Hy]; simpl.
  - repeat constructor.
  - destruct (Qltb (snd x) (snd y)) eqn:E.
    + constructor; [exact IH|].
      apply (Permutation_Forall (Permutation_sym (insert_desc_perm x l))).
      constructor; [|exact Hy].
      unfold at_least_as_fast. now apply Qltb_true.
    + apply Qltb_false in E. constructor.
      * now constructor.
      * constructor; [exact E|].
        eapply Forall_impl; [|exact Hy].
        intros z Hz. unfold at_least_as_fast in *.
        eapply Qle_trans; eauto.
Qed.

Lemma sorted_desc_sorted (l : list (string * Q)) :
  StronglySorted at_least_as_fast (sorted_desc l).
Proof.
  induction l as [|x l IH]; simpl; [constructor|].
  now apply insert_desc_sorted.
Qed.

Section Prefix.

Context {A : Type} (R : A -> A -> Prop).

Lemma firstn_In (n : nat) (l : list A) (x : A) :
  In x (firstn n l) -> In x l.
Proof.
  intros H. rewrite <- (firstn_skipn n l). apply in_or_app. now left.
Qed.

Lemma skipn_In (n : nat) (l : list A) (x : A) :
  In x (skipn n l) -> In x l.
Proof.
  intros H. rewrite <- (firstn_skipn n l). apply in_or_app. now right.
Qed.

Lemma firstn_sorted (n : nat) (l : list A) :
  StronglySorted R l -> StronglySorted R (firstn n l).
Proof.
  intros H. revert n. induction H as [|x l Hs IH Hx]; intros [|n]; simpl;
    try constructor.
  - apply IH.
  - rewrite Forall_forall in *. intros y Hy. apply Hx.
    eapply firstn_In; eauto.
Qed.

Lemma firstn_before_skipn (n : nat) (l : list A) :
  StronglySorted R l ->
  forall x y, In x (firstn n l) -> In y (skipn n l) -> R x y.
Proof.
  intros H. revert n. induction H as [|a l Hs IH Ha]; intros [|n] x y;
    simpl; try tauto.
  intros [<-|Hx] Hy.
  - rewrite Forall_forall in Ha. apply Ha. eapply skipn_In; eauto.
  - eapply IH; eauto.
Qed.

End Prefix.

End SortFacts.

(** C6: the report has [min 5 (size of the results)] entries, the
    greatest speed first; the results are the entries of the report and
    others, none of which is faster than an entry of the report; from no
    result the report is empty. *)
Theorem sorted_mirrors_ranked (arch_results : PyDict.dict Q) :
  List.length (Tester.sorted_mirrors arch_results)
  = Nat.min 5 (PyDict.len arch_results)
  /\ List.length (Tester.sorted_mirrors arch_results)
     <= Nat.min 5 (PyDict.len arch_results)
  /\ StronglySorted Spec.at_least_as_fast (Tester.sorted_mirrors arch_results)
  /\ (exists rest,
        Permutation (Tester.sorted_mirrors arch_results ++ rest)
          (PyDict.items arch_results)
        /\ forall x y,
            In x (Tester.sorted_mirrors arch_results) -> In y rest ->
            Spec.at_least_as_fast x y)
  /\ Tester.sorted_mirrors [] = [].
Proof.
  assert (List.length (Tester.sorted_mirrors arch_results)
          = Nat.min 5 (PyDict.len arch_results)) as Hlen.
  { unfold Tester.sorted_mirrors, PyDict.len, PyDict.items.
    rewrite length_firstn.
    now rewrite (Permutation_length (SortFacts.sorted_desc_perm arch_results)). }
  split; [exact Hlen|]. split; [rewrite Hlen; apply Nat.le_refl|].
  split; [|split; [|reflexivity]].
  - apply SortFacts.firstn_sorted, SortFacts.sorted_desc_sorted.
  - exists (skipn 5 (Tester.sorted_desc (PyDict.items arch_results))). split.
    + unfold Tester.sorted_mirrors. rewrite firstn_skipn.
      apply SortFacts.sorted_desc_perm.
    + apply SortFacts.firstn_before_skipn, SortFacts.sorted_desc_sorted.
Qed.

Example sorted_mirrors_of_six :
  Tester.sorted_mirrors
    [ ("a", 3%Q); ("b", 7%Q); ("c", 1%Q); ("d", 7%Q); ("e", 2%Q);
      ("f", 5%Q) ]
  = [ ("b", 7%Q); ("d", 7%Q); ("f", 5%Q); ("a", 3%Q); ("e", 2%Q) ].
Proof. reflexivity. Qed.

(** C9: [main] runs to its end, and the last thing it prints is a blank
    line and the line [Tested n mirrors, found k working], with [n] the
    number of candidates and [k] the number of results.  When there is
    no result it prints, between the first line and that one, [No
    working mirrors found] and no table; with no candidate the last line
    reads [Tested 0 mirrors, found 0 working]. *)
Theorem main_report_summary
    (machine : string) (listing : outcome (response soup))
    (urljoin : string -> string -> outcome string)
    (urlparse : string -> outcome parse_result)
    (session_get : string -> outcome (response (list stream_item)))
    (clock : string -> nat -> Q) (order : Tester.completion)
    (format_2f : Q -> string) :
  exists mirrors r,
    Tester.get_mirrors listing = Ret mirrors
    /\ Tester.main machine listing urljoin urlparse session_get clock order
         format_2f = Ret r
    /\ last (Tester.stdout r) ""%string
       = String "010"
           (Spec.summary (List.length mirrors)
              (PyDict.len (Tester.arch_results r)))
    /\ last (Tester.printed_lines (Tester.stdout r)) ""%string
       = Spec.summary (List.length mirrors)
           (PyDict.len (Tester.arch_results r))
    /\ (Tester.arch_results r = [] ->
        Tester.stdout r
        = [ (String "010" "Testing " ++ PyStr.of_nat (List.length mirrors)
             ++ " mirrors...")%string;
            String "010" "No working mirrors found";
            String "010" (Spec.summary (List.length mirrors) 0) ])
    /\ (mirrors = [] ->
        Tester.arch_results r = []
        /\ Tester.stdout r
           = [ String "010" "Testing 0 mirrors...";
               String "010" "No working mirrors found";
               String "010" "Tested 0 mirrors, found 0 working" ]
        /\ last (Tester.printed_lines (Tester.stdout r)) ""%string
           = "Tested 0 mirrors, found 0 working"%string).
Proof.
  destruct (MainFacts.main_returns machine urljoin urlparse session_get
              clock order format_2f listing)
    as (mirrors & futures & G & S & M).
  eexists mirrors, _. split; [exact G|]. split; [exact M|].
  cbn [Tester.stdout Tester.arch_results].
  set (d := fst (Tester.gather order futures)) in *.
  destruct (MainFacts.report_last_print format_2f (List.length mirrors) d)
    as [before Hrep].
  assert (last (Tester.printed_lines
                  ([ (String "010" "Testing "
                      ++ PyStr.of_nat (List.length mirrors)
                      ++ " mirrors...")%string ]
                   ++ Tester.report format_2f (List.length mirrors) d))
               ""%string
          = Spec.summary (List.length mirrors) (PyDict.len d)) as Hlast.
  { rewrite Hrep, app_assoc. unfold Tester.printed_lines.
    rewrite flat_map_app. cbn [flat_map].
    rewrite MainFacts.split_all_leading_newline
      by apply MainFacts.summary_no_newline.
    rewrite app_nil_r.
    change [""%string; Spec.summary (List.length mirrors) (PyDict.len d)]
      with ([""%string]
            ++ [Spec.summary (List.length mirrors) (PyDict.len d)]).
    rewrite app_assoc. apply last_last. }
  split; [|split; [exact Hlast|split]].
  - rewrite Hrep, app_assoc. apply last_last.
  - intros ->. reflexivity.
  - intros ->. simpl in S. injection S as <-.
    subst d. rewrite MainFacts.gather_nil in *. simpl.
    split; [reflexivity|]. split; [reflexivity|]. exact Hlast.
Qed.

(** A run on the listing of three rows, each host answering over HTTPS
    only: two candidates, two results of the same speed, the first listed
    first. *)
Example main_on_listing3 :
  Tester.main "x86_64" (Ret (mkResponse 200 Samples.listing3))
    UrlLib.urljoin UrlLib.urlparse Samples.https_only
    (fun _ => Samples.half_clock) Samples.reversed Samples.no_format
  = Ret (Tester.mkRun
           [ String "010" "Testing 2 mirrors...";
             String "010" "Top 5 mirrors by Packages.gz download speed:";
             String "010"
               "Mirror                                     Speed (MB/s)";
             "------------------------------------------------------------";
             (PyStr.ljust 40 "http://ftp.de.debian.org/debian/" ++ " "
              ++ PyStr.rjust 8 ".")%string;
             (PyStr.ljust 40 "http://ftp.debian.org/debian/" ++ " "
              ++ PyStr.rjust 8 ".")%string;
             String "010" "Sources list entries for fastest mirror:";
             "deb http://ftp.de.debian.org/debian/ stable main contrib non-free";
             "deb http://ftp.de.debian.org/debian/ stable-updates main contrib non-free";
             String "010" "Tested 2 mirrors, found 2 working" ]
           2
           [ ("http://ftp.de.debian.org/debian/"%string,
              Tester.speed_of 65536
                (Samples.half_clock 2 - Samples.half_clock 0));
             ("http://ftp.debian.org/debian/"%string,
              Tester.speed_of 65536
                (Samples.half_clock 2 - Samples.half_clock 0)) ]).
Proof. vm_compute. reflexivity. Qed.

(* ================================================================== *)
(** * More on one probe *)
(* ================================================================== *)

Module ProbeMore.

Import PyStr Tester Spec Body.

Lemma inject_Z_pos (z : Z) : (0 < z)%Z -> (0 < inject_Z z)%Q.
Proof. intros H. unfold Qlt. simpl. lia. Qed.

Lemma Qdiv_pos (x c : Q) : (0 < x)%Q -> (0 < c)%Q -> (0 < x / c)%Q.
Proof.
  intros Hx Hc. apply Qlt_shift_div_l; [exact Hc|].
  now rewrite Qmult_0_l.
Qed.

Lemma speed_of_pos (total_size : Z) (duration : Q) :
  (0 < total_size)%Z -> (0 < duration)%Q ->
  (0 < speed_of total_size duration)%Q.
Proof.
  intros T D. unfold speed_of.
  repeat apply Qdiv_pos; auto using inject_Z_pos; reflexivity.
Qed.

Section Probe.

Variable urljoin : string -> string -> outcome string.
Variable urlparse : string -> outcome parse_result.
Variable session_get : string -> outcome (response (list stream_item)).
Variable clock : nat -> Q.

Local Abbreviation read_body := (read_body clock).
Local Abbreviation attempt := (attempt urlparse session_get clock).
Local Abbreviation try_schemes := (try_schemes urlparse session_get clock).

Ltac run_monad :=
  unfold bind, lift, ret, raise, time_time, get, try_except in *; simpl in *.

Ltac bounds := unfold download_limit, chunk_size in *; lia.

(** What the loop over the schemes returns is [(None, 0)] or the sample
    of one attempt. *)
Lemma try_schemes_shape (mirror url : string) (l : list string) :
  forall w w' r,
    try_schemes mirror url l w = (Ret r, w') ->
    r = (None, 0%Q)
    \/ exists b sp scheme w0,
        r = (Some b, sp)
        /\ attempt mirror url scheme w0 = (Ret (Some (b, sp)), w').
Proof.
  induction l as [|scheme l IH]; intros w w' r; simpl.
  - run_monad. intros [= <- _]. now left.
  - run_monad.
    destruct (attempt mirror url scheme w) as [[[[b1 sp1]|]|] w1] eqn:A.
    + intros [= <- <-]. right. exists b1, sp1, scheme, w. auto.
    + apply IH.
    + apply IH.
Qed.

(** An attempt adds at most its own URL to the requests. *)
Lemma attempt_requests_any (mirror url scheme : string) (w : world) :
  exists extra,
    requests (snd (attempt mirror url scheme w)) = requests w ++ extra
    /\ List.length extra <= 1
    /\ forall u, In u extra ->
                 exists p, urlparse url = Ret p /\ u = target scheme p.
Proof.
  destruct (urlparse url) as [p|] eqn:P.
  - exists [target scheme p]. split; [|split].
    + now apply ProbeFacts.attempt_requests.
    + simpl. lia.
    + intros u [<-|[]]. now exists p.
  - exists []. split; [|split].
    + unfold Tester.attempt, test_url_of. rewrite P. run_monad.
      now rewrite app_nil_r.
    + simpl. lia.
    + intros u [].
Qed.

Lemma try_schemes_requests (mirror url : string) (l : list string) :
  forall w,
    exists extra,
      requests (snd (try_schemes mirror url l w)) = requests w ++ extra
      /\ List.length extra <= List.length l
      /\ forall u, In u extra ->
                   exists p scheme,
                     urlparse url = Ret p /\ In scheme l
                     /\ u = target scheme p.
Proof.
  induction l as [|scheme l IH]; intros w; simpl.
  - exists []. run_monad. rewrite app_nil_r. repeat split; auto.
    intros u [].
  - destruct (attempt_requests_any mirror url scheme w)
      as (e1 & R1 & L1 & U1).
    assert (forall u, In u e1 ->
              exists p s, urlparse url = Ret p /\ (scheme = s \/ In s l)
                          /\ u = target s p) as U1'.
    { intros u Hu. destruct (U1 u Hu) as (p & P & ->). exists p, scheme. auto. }
    run_monad.
    destruct (attempt mirror url scheme w) as [[[[b sp]|]|] w1]; simpl in *.
    + exists e1. repeat split; auto. lia.
    + destruct (IH w1) as (e2 & R2 & L2 & U2).
      exists (e1 ++ e2). rewrite R2, R1, app_assoc. split; [reflexivity|].
      split; [rewrite length_app; lia|].
      intros u Hu. apply in_app_or in Hu as [Hu|Hu]; [now apply U1'|].
      destruct (U2 u Hu) as (p & s & P & Hs & ->). exists p, s. auto.
    + destruct (IH w1) as (e2 & R2 & L2 & U2).
      exists (e1 ++ e2). rewrite R2, R1, app_assoc. split; [reflexivity|].
      split; [rewrite length_app; lia|].
      intros u Hu. apply in_app_or in Hu as [Hu|Hu]; [now apply U1'|].
      destruct (U2 u Hu) as (p & s & P & Hs & ->). exists p, s. auto.
Qed.

(** The count is the bytes of the items read, and before each of them it
    was below the limit. *)
Lemma read_body_prefix (start : Q) (items : list stream_item) :
  forall total w t w',
    (total < download_limit)%Z ->
    read_body start items total w = (Ret t, w') ->
    exists k,
      k <= List.length items
      /\ t = (total + sum_len (firstn k items))%Z
      /\ (forall j, j < k ->
                    (total + sum_len (firstn j items) < download_limit)%Z)
      /\ ~ In StreamError (firstn k items).
Proof.
  induction items as [|[c|] items IH]; intros total w t w' Ht; simpl.
  - run_monad. intros [= <- _]. exists 0. simpl. repeat split; auto; lia.
  - assert (forall t0 w0,
              (total + Z.of_nat (List.length c) < download_limit)%Z ->
              read_body start items (total + Z.of_nat (List.length c)) w0
              = (Ret t0, w') ->
              exists k,
                k <= S (List.length items)
                /\ t0 = (total + sum_len (firstn k (Chunk c :: items)))%Z
                /\ (forall j, j < k ->
                      (total + sum_len (firstn j (Chunk c :: items))
                       < download_limit)%Z)
                /\ ~ In StreamError (firstn k (Chunk c :: items))) as Hrec.
    { intros t0 w0 Hlt R. apply IH in R as (k & Hk & -> & Hj & Hin); auto.
      exists (S k). simpl. repeat split; try lia.
      - intros [|j] Hlt'; simpl; [lia|].
        specialize (Hj j). lia.
      - intros [H|H]; [discriminate | auto]. }
    assert (exists k,
              k <= S (List.length items)
              /\ (total + Z.of_nat (List.length c))%Z
                 = (total + sum_len (firstn k (Chunk c :: items)))%Z
              /\ (forall j, j < k ->
                    (total + sum_len (firstn j (Chunk c :: items))
                     < download_limit)%Z)
              /\ ~ In StreamError (firstn k (Chunk c :: items))) as Hstop.
    { exists 1. simpl. repeat split; try lia.
      - intros j Hj. replace j with 0 by lia. simpl. lia.
      - intros [H|[]]. discriminate. }
    destruct c as [|x c]; cbn [nonempty].
    + intros R. apply (Hrec t w); [simpl; lia|].
      simpl. now rewrite Z.add_0_r.
    + destruct (Z.leb_spec download_limit
                  (total + Z.of_nat (List.length (x :: c)))) as [Hge|Hlt].
      * run_monad. intros [= <- _]. exact Hstop.
      * run_monad. destruct (Qltb timeout _).
        -- intros [= <- _]. exact Hstop.
        -- intros R. eapply Hrec; eauto.
  - run_monad. discriminate.
Qed.

(** When the first reading of the clock is past the timeout, the first
    chunk that is not empty is the only one counted. *)
Lemma read_body_late (start : Q) (items : list stream_item) :
  forall total w t w',
    Qltb timeout (clock (ticks w) - start) = true ->
    read_body start items total w = (Ret t, w') ->
    t = (total + first_nonempty_len items)%Z.
Proof.
  induction items as [|[c|] items IH]; intros total w t w' Hlate; simpl.
  - run_monad. intros [= <- _]. lia.
  - destruct c as [|x c]; cbn [nonempty]; [now apply IH|].
    destruct (Z.leb_spec download_limit
                (total + Z.of_nat (List.length (x :: c)))) as [Hge|Hlt].
    + run_monad. now intros [= <- _].
    + run_monad. rewrite Hlate. now intros [= <- _].
  - run_monad. discriminate.
Qed.

End Probe.

End ProbeMore.

(** X1: what a probe returns is the pair [(None, 0)], or the base URL
    of its candidate with a speed above 0: the scheduler's test
    [speed > 0] never turns down a sample the probe returned. *)
Theorem probe_result_shape
    (urljoin : string -> string -> outcome string)
    (urlparse : string -> outcome parse_result)
    (session_get : string -> outcome (response (list stream_item)))
    (clock : nat -> Q) (mirror test_file : string) (w w' : world)
    (r : option string * Q) :
  Tester.test_mirror_speed urljoin urlparse session_get clock
    mirror test_file w = (Ret r, w') ->
  r = (None, 0%Q)
  \/ exists speed,
      r = (Some (Tester.base_url mirror), speed) /\ (0 < speed)%Q.
Proof.
  unfold Tester.test_mirror_speed, bind, lift.
  destruct (urljoin mirror test_file) as [url|]; [|discriminate].
  intros R. apply ProbeMore.try_schemes_shape in R
    as [->|(b & sp & scheme & w0 & -> & A)]; [now left | right].
  apply ProbeFacts.attempt_success in A
    as (_ & _ & total & w1 & _ & _ & _ & _ & D & T & -> & -> & _).
  eexists. split; [reflexivity|].
  apply ProbeMore.speed_of_pos; [now apply Z.ltb_lt | now apply Qltb_lt].
Qed.

Lemma probe_result_shape_witness :
  (Some "http://ftp.debian.org/debian/"%string,
   Tester.speed_of 65536 (Samples.half_clock 2 - Samples.half_clock 0))
  = (None, 0%Q)
  \/ exists speed,
      (Some "http://ftp.debian.org/debian/"%string,
       Tester.speed_of 65536 (Samples.half_clock 2 - Samples.half_clock 0))
      = (Some (Tester.base_url "http://ftp.debian.org/debian/"), speed)
      /\ (0 < speed)%Q.
Proof.
  apply (probe_result_shape UrlLib.urljoin UrlLib.urlparse
           Samples.https_only Samples.half_clock
           "http://ftp.debian.org/debian/" Samples.amd64_file world0
           (mkWorld 3
              ["https://ftp.debian.org/debian/dists/stable/main/binary-amd64/Packages.gz"%string])).
  vm_compute. reflexivity.
Defined.

(** X2: a probe makes at most two requests, each for the host and path of
    the joined URL under [http] or [https]; when [urljoin] raises it
    raises at once, with no request made and the clock not read. *)
Theorem probe_requests_at_most_two
    (urljoin : string -> string -> outcome string)
    (urlparse : string -> outcome parse_result)
    (session_get : string -> outcome (response (list stream_item)))
    (clock : nat -> Q) (mirror test_file : string) (w : world) :
  (exists extra,
      requests
        (snd (Tester.test_mirror_speed urljoin urlparse session_get clock
                mirror test_file w))
      = requests w ++ extra
      /\ List.length extra <= 2
      /\ forall u, In u extra ->
                   exists url p scheme,
                     urljoin mirror test_file = Ret url
                     /\ urlparse url = Ret p
                     /\ (scheme = "http"%string \/ scheme = "https"%string)
                     /\ u = (scheme ++ "://" ++ netloc p ++ path p)%string)
  /\ (urljoin mirror test_file = Raise ->
      Tester.test_mirror_speed urljoin urlparse session_get clock
        mirror test_file w = (Raise, w)).
Proof.
  unfold Tester.test_mirror_speed, bind, lift. split.
  - destruct (urljoin mirror test_file) as [url|] eqn:J.
    + destruct (ProbeMore.try_schemes_requests urlparse session_get clock
                  mirror url (Tester.schemes mirror) w)
        as (extra & R & L & U).
      exists extra. split; [exact R|]. split.
      * unfold Tester.schemes in L.
        destruct (PyStr.startswith mirror "http://"); simpl in L; lia.
      * intros u Hu. destruct (U u Hu) as (p & scheme & P & Hs & ->).
        exists url, p, scheme. repeat split; auto.
        unfold Tester.schemes in Hs.
        destruct (PyStr.startswith mirror "http://"); simpl in Hs;
          intuition auto.
    + exists []. simpl. rewrite app_nil_r. repeat split; auto.
      intros u [].
  - intros ->. reflexivity.
Qed.

(** X3: the count the loop over the body ends with is the number of
    bytes of the items it read, a prefix of the stream without an error
    in it; before each item read the count was below [download_limit],
    and the count is at most the bytes of the whole stream. *)
Theorem read_body_counts_prefix (clock : nat -> Q) (start_time : Q)
    (items : list stream_item) (w w' : world) (total_size : Z) :
  Tester.read_body clock start_time items 0 w = (Ret total_size, w') ->
  exists k,
    k <= List.length items
    /\ total_size = Body.sum_len (firstn k items)
    /\ (forall j, j < k ->
                  (Body.sum_len (firstn j items) < Tester.download_limit)%Z)
    /\ ~ In StreamError (firstn k items)
    /\ (0 <= total_size <= Body.sum_len items)%Z.
Proof.
  intros R.
  apply ProbeMore.read_body_prefix in R as (k & Hk & -> & Hj & Hin);
    [|reflexivity].
  exists k. repeat split; auto.
  - clear. revert k.
    induction items as [|[c|] items IH]; intros [|k]; simpl; try lia.
    + specialize (IH k). lia.
    + apply IH.
  - clear. revert k.
    induction items as [|[c|] items IH]; intros [|k]; simpl; try lia.
    + specialize (IH 0). simpl in IH. lia.
    + specialize (IH k). lia.
    + specialize (IH 0). simpl in IH. lia.
    + apply IH.
Qed.

Lemma read_body_counts_prefix_witness :
  exists k,
    k <= List.length (List.repeat (Chunk (Samples.bytes 65535)) 12)
    /\ 589815%Z
       = Body.sum_len
           (firstn k (List.repeat (Chunk (Samples.bytes 65535)) 12))
    /\ (forall j, j < k ->
          (Body.sum_len
             (firstn j (List.repeat (Chunk (Samples.bytes 65535)) 12))
           < Tester.download_limit)%Z)
    /\ ~ In StreamError
           (firstn k (List.repeat (Chunk (Samples.bytes 65535)) 12))
    /\ (0 <= 589815
        <= Body.sum_len (List.repeat (Chunk (Samples.bytes 65535)) 12))%Z.
Proof.
  apply (read_body_counts_prefix Samples.centi_clock (Samples.centi_clock 0)
           (List.repeat (Chunk (Samples.bytes 65535)) 12)
           (mkWorld 1 []) (mkWorld 9 [])).
  vm_compute. reflexivity.
Defined.

(** X4: [download_limit] is eight times [chunk_size]: when every chunk
    of the body has exactly [chunk_size] bytes, the count never passes
    [download_limit] and is a multiple of [chunk_size]. *)
Theorem read_body_full_chunks_cap (clock : nat -> Q) (start_time : Q)
    (items : list stream_item) (w w' : world) (total_size : Z) :
  Forall Body.full_chunk items ->
  Tester.read_body clock start_time items 0 w = (Ret total_size, w') ->
  (total_size <= Tester.download_limit)%Z
  /\ (Tester.chunk_size | total_size)%Z.
Proof.
  intros Hfull R.
  apply (ProbeFacts.read_body_full_chunks clock start_time items Hfull)
    in R; auto.
  - unfold Tester.download_limit. lia.
  - apply Z.divide_0_r.
Qed.

Lemma read_body_full_chunks_cap_witness :
  (524288 <= Tester.download_limit)%Z /\ (Tester.chunk_size | 524288)%Z.
Proof.
  apply (read_body_full_chunks_cap Samples.centi_clock
           (Samples.centi_clock 0)
           (List.repeat (Chunk (Samples.bytes 65536)) 10)
           (mkWorld 1 []) (mkWorld 8 [])).
  - repeat constructor.
  - vm_compute. reflexivity.
Defined.

(** X5: the clock is read only after a chunk that is not empty has been
    counted: when that first reading is more than [timeout] after the
    start, the count is the size of that one chunk, whatever follows. *)
Theorem read_body_after_timeout (clock : nat -> Q) (start_time : Q)
    (items : list stream_item) (w w' : world) (total_size : Z) :
  Qltb Tester.timeout (clock (ticks w) - start_time) = true ->
  Tester.read_body clock start_time items 0 w = (Ret total_size, w') ->
  total_size = Body.first_nonempty_len items.
Proof.
  intros Hlate R.
  now apply (ProbeMore.read_body_late clock start_time items 0 w) in R.
Qed.

Lemma read_body_after_timeout_witness :
  100%Z
  = Body.first_nonempty_len
      [Chunk []; Chunk (Samples.bytes 100); Chunk (Samples.bytes 200)].
Proof.
  apply (read_body_after_timeout (fun _ => 5%Q) 0%Q
           [Chunk []; Chunk (Samples.bytes 100); Chunk (Samples.bytes 200)]
           (mkWorld 1 []) (mkWorld 2 [])).
  - reflexivity.
  - vm_compute. reflexivity.
Defined.

(* ================================================================== *)
(** * More on the scheduler *)
(* ================================================================== *)

Module SchedulerMore.

Import PyStr PyDict Tester Spec.

Lemma set_In {V : Type} (k : string) (v : V) (d : dict V) (e : string * V) :
  In e (set k v d) -> e = (k, v) \/ In e d.
Proof.
  induction d as [|[k' v'] d IH]; simpl.
  - intros [<-|[]]. now left.
  - destruct (String.eqb_spec k' k) as [->|Hne]; simpl.
    + intros [<-|H]; auto.
    + intros [<-|H]; auto. destruct (IH H); auto.
Qed.

Lemma set_length {V : Type} (k : string) (v : V) (d : dict V) :
  List.length (set k v d) <= S (List.length d).
Proof.
  induction d as [|[k' v'] d IH]; simpl; [lia|].
  destruct (String.eqb k' k); simpl; lia.
Qed.

Lemma set_NoDup {V : Type} (k : string) (v : V) (d : dict V) :
  NoDup (keys d) -> NoDup (keys (set k v d)).
Proof.
  intros H. rewrite DictFacts.keys_set.
  destruct (existsb (String.eqb k) (keys d)) eqn:E; [exact H|].
  apply (Permutation_NoDup (Permutation_cons_append (keys d) k)).
  constructor; [|exact H].
  intros Hin. assert (existsb (String.eqb k) (keys d) = true) as E'.
  { apply existsb_exists. exists k. split; [exact Hin|].
    apply String.eqb_refl. }
  congruence.
Qed.

(** Lookup after assignment. *)
Lemma get_set_same {V : Type} (k : string) (v : V) (d : dict V) :
  PyDict.get (set k v d) k = Some v.
Proof.
  induction d as [|[k' v'] d IH]; simpl.
  - now rewrite String.eqb_refl.
  - destruct (String.eqb k' k) eqn:E; simpl; now rewrite E.
Qed.

Lemma get_set_other {V : Type} (k k0 : string) (v : V) (d : dict V) :
  k0 <> k -> PyDict.get (set k v d) k0 = PyDict.get d k0.
Proof.
  intros Hne. induction d as [|[k' v'] d IH]; simpl.
  - destruct (String.eqb_spec k k0); [congruence | reflexivity].
  - destruct (String.eqb_spec k' k) as [->|Hk]; simpl.
    + destruct (String.eqb_spec k k0); [congruence | reflexivity].
    + now rewrite IH.
Qed.

(** One turn of the loop keeps the results, or assigns a sample. *)
Lemma collect_step (d : dict Q) (n : nat) (f : future) :
  collect (d, n) f = (d, S n)
  \/ exists b sp,
      f = Ret (Some b, sp)
      /\ truthy b = true /\ Qltb 0 sp = true
      /\ collect (d, n) f = (set b sp d, S n).
Proof.
  destruct f as [[[b|] sp]|]; simpl; auto.
  destruct (truthy b) eqn:T, (Qltb 0 sp) eqn:P; simpl; auto.
  right. exists b, sp. auto.
Qed.

Lemma collect_all_NoDup (l : list future) :
  forall d n,
    NoDup (keys d) -> NoDup (keys (fst (fold_left collect l (d, n)))).
Proof.
  induction l as [|f l IH]; intros d n H; [exact H|].
  cbn [fold_left].
  destruct (collect_step d n f) as [->|(b & sp & _ & _ & _ & ->)];
    apply IH; auto using set_NoDup.
Qed.

Lemma collect_all_length (l : list future) :
  forall d n,
    List.length (fst (fold_left collect l (d, n)))
    <= List.length d + List.length l.
Proof.
  induction l as [|f l IH]; intros d n; [simpl; lia|].
  cbn [fold_left].
  destruct (collect_step d n f) as [->|(b & sp & _ & _ & _ & ->)].
  - specialize (IH d (S n)). simpl. lia.
  - specialize (IH (set b sp d) (S n)).
    pose proof (set_length b sp d). simpl. lia.
Qed.

(** Every result was there before, or is the sample of a future. *)
Lemma collect_all_entries (l : list future) :
  forall d n e,
    In e (fst (fold_left collect l (d, n))) ->
    In e d
    \/ (In (Ret (Some (fst e), snd e)) l
        /\ truthy (fst e) = true /\ Qltb 0 (snd e) = true).
Proof.
  induction l as [|f l IH]; intros d n e; [now left|].
  cbn [fold_left].
  destruct (collect_step d n f) as [->|(b & sp & -> & T & P & ->)];
    intros H; apply IH in H.
  - destruct H as [H|(H & T & P)]; [now left | right].
    split; [now right | now split].
  - destruct H as [H|(H & T' & P')].
    + apply set_In in H as [->|H]; [right | now left].
      simpl. split; [now left | now split].
    + right. split; [now right | now split].
Qed.

(** Futures that hold no sample leave the results as they were. *)
Lemma collect_all_no_result (l : list future) :
  (forall f, In f l -> f = Raise \/ exists x, f = Ret (None, x)) ->
  forall d n, fst (fold_left collect l (d, n)) = d.
Proof.
  induction l as [|f l IH]; intros Hl d n; [reflexivity|].
  cbn [fold_left].
  assert (collect (d, n) f = (d, S n)) as ->.
  { destruct (Hl f (or_introl eq_refl)) as [->|[x ->]]; reflexivity. }
  apply IH. intros g Hg. apply Hl. now right.
Qed.

Section Run.

Variable machine : string.
Variable urljoin : string -> string -> outcome string.
Variable urlparse : string -> outcome parse_result.
Variable session_get : string -> outcome (response (list stream_item)).
Variable clock : string -> nat -> Q.

(** Every future is the probe of one of the mirrors. *)
Lemma submit_all_In (mirrors : list string) :
  forall futures,
    submit_all machine urljoin urlparse session_get clock mirrors
    = Ret futures ->
    forall f, In f futures ->
      exists mirror test_file,
        In mirror mirrors
        /\ f = submit urljoin urlparse session_get clock mirror test_file.
Proof.
  induction mirrors as [|m mirrors IH]; intros futures; cbn [submit_all].
  - intros [= <-] f [].
  - destruct (PyDict.get speed_files (system_arch machine)) as [file|];
      [|discriminate].
    destruct (submit_all machine urljoin urlparse session_get clock mirrors)
      as [fs|]; [|discriminate].
    intros [= <-] f [<-|Hf].
    + exists m, file. split; [now left | reflexivity].
    + destruct (IH fs eq_refl f Hf) as (m' & file' & Hin & ->).
      exists m', file'. split; [now right | reflexivity].
Qed.

(** Without a network, a probe holds no sample. *)
Lemma submit_no_network (mirror test_file : string) :
  (forall url, session_get url = Raise) ->
  submit urljoin urlparse session_get clock mirror test_file = Raise
  \/ submit urljoin urlparse session_get clock mirror test_file
     = Ret (None, 0%Q).
Proof.
  intros Hnet. unfold submit, test_mirror_speed, bind, lift.
  destruct (urljoin mirror test_file) as [url|]; [right | now left].
  apply ProbeFacts.try_schemes_no_result. intros scheme w0 _.
  destruct (urlparse url) as [p|] eqn:P.
  - eapply ProbeFacts.attempt_fails; eauto. left. apply Hnet.
  - left. now apply ProbeFacts.attempt_parse_error.
Qed.

End Run.

End SchedulerMore.

(** X6: every entry of the results of a run is a sample of one of the
    candidates: its key is the base URL of a candidate and is not empty,
    and its speed is above 0. *)
Theorem main_results_are_samples
    (machine : string) (listing : outcome (response soup))
    (urljoin : string -> string -> outcome string)
    (urlparse : string -> outcome parse_result)
    (session_get : string -> outcome (response (list stream_item)))
    (clock : string -> nat -> Q) (order : Tester.completion)
    (format_2f : Q -> string) :
  exists mirrors r,
    Tester.get_mirrors listing = Ret mirrors
    /\ Tester.main machine listing urljoin urlparse session_get clock order
         format_2f = Ret r
    /\ forall b sp,
        In (b, sp) (Tester.arch_results r) ->
        b <> ""%string
        /\ (0 < sp)%Q
        /\ exists mirror, In mirror mirrors /\ b = Tester.base_url mirror.
Proof.
  destruct (MainFacts.main_returns machine urljoin urlparse session_get
              clock order format_2f listing)
    as (mirrors & futures & G & S & M).
  eexists mirrors, _. split; [exact G|]. split; [exact M|].
  cbn [Tester.arch_results]. unfold Tester.gather. intros b sp H.
  apply SchedulerMore.collect_all_entries in H as [[]|(H & T & P)].
  simpl in H, T, P.
  apply (Permutation_in _ (Tester.as_completed_perm order futures)) in H.
  destruct (SchedulerMore.submit_all_In machine urljoin urlparse session_get
              clock mirrors futures S _ H) as (m & file & Hm & Hf).
  split; [|split].
  - intros ->. discriminate.
  - now apply Qltb_lt.
  - exists m. split; [exact Hm|].
    unfold Tester.submit in Hf.
    destruct (Tester.test_mirror_speed urljoin urlparse session_get
                (clock m) m file world0) as [o w'] eqn:R.
    simpl in Hf. subst o.
    apply ProbeFacts.test_mirror_speed_success in R
      as (url & scheme & w0 & _ & _ & A).
    now apply ProbeFacts.attempt_success in A
      as (_ & _ & _ & _ & _ & _ & _ & _ & _ & _ & -> & _).
Qed.

(** X7: a run finds at most as many mirrors as it tests, and no base URL
    is twice in its results: candidates with the same base URL share one
    entry. *)
Theorem main_found_at_most_tested
    (machine : string) (listing : outcome (response soup))
    (urljoin : string -> string -> outcome string)
    (urlparse : string -> outcome parse_result)
    (session_get : string -> outcome (response (list stream_item)))
    (clock : string -> nat -> Q) (order : Tester.completion)
    (format_2f : Q -> string) :
  exists mirrors r,
    Tester.get_mirrors listing = Ret mirrors
    /\ Tester.main machine listing urljoin urlparse session_get clock order
         format_2f = Ret r
    /\ PyDict.len (Tester.arch_results r) <= List.length mirrors
    /\ NoDup (PyDict.keys (Tester.arch_results r)).
Proof.
  destruct (MainFacts.main_returns machine urljoin urlparse session_get
              clock order format_2f listing)
    as (mirrors & futures & G & S & M).
  destruct (MainFacts.submit_all_returns machine urljoin urlparse
              session_get clock mirrors) as (futures' & S' & Hlen).
  rewrite S in S'. injection S' as <-.
  eexists mirrors, _. split; [exact G|]. split; [exact M|].
  cbn [Tester.arch_results]. unfold Tester.gather, PyDict.len. split.
  - pose proof (SchedulerMore.collect_all_length
                  (Tester.as_completed order futures) [] 0) as L.
    rewrite (Permutation_length (Tester.as_completed_perm order futures))
      in L.
    etransitivity; [exact L|]. simpl. lia.
  - apply SchedulerMore.collect_all_NoDup. constructor.
Qed.

(** X8: the last sample wins: after the loop has taken a future with a
    base URL and a speed above 0, the results give that speed for that
    base URL, whatever earlier futures gave for it, and the other base
    URLs keep what they had. *)
Theorem collect_last_writer_wins (l : list Tester.future)
    (d : PyDict.dict Q) (n : nat) (b : string) (sp : Q) :
  b <> ""%string ->
  (0 < sp)%Q ->
  PyDict.get
    (fst (fold_left Tester.collect (l ++ [Ret (Some b, sp)]) (d, n))) b
  = Some sp
  /\ forall k,
      k <> b ->
      PyDict.get
        (fst (fold_left Tester.collect (l ++ [Ret (Some b, sp)]) (d, n))) k
      = PyDict.get (fst (fold_left Tester.collect l (d, n))) k.
Proof.
  intros Hb Hsp.
  assert (forall st : PyDict.dict Q * nat,
            Tester.collect st (Ret (Some b, sp))
            = (PyDict.set b sp (fst st), S (snd st))) as Hstep.
  { intros [d' n']. simpl. unfold truthy.
    destruct (String.eqb_spec b ""); [contradiction|].
    unfold Qltb. destruct (Qle_bool sp 0) eqn:E; [|reflexivity].
    apply Qle_bool_iff in E. exfalso. eapply Qlt_not_le; eauto. }
  rewrite fold_left_app. cbn [fold_left]. rewrite Hstep. cbn [fst]. split.
  - apply SchedulerMore.get_set_same.
  - intros k Hk. now apply SchedulerMore.get_set_other.
Qed.

Lemma collect_last_writer_wins_witness :
  PyDict.get
    (fst (fold_left Tester.collect
            ([Ret (Some "http://h/debian/"%string, 3%Q); Raise]
             ++ [Ret (Some "http://h/debian/"%string, 2%Q)]) ([], 0)))
    "http://h/debian/"
  = Some 2%Q
  /\ forall k,
      k <> "http://h/debian/"%string ->
      PyDict.get
        (fst (fold_left Tester.collect
                ([Ret (Some "http://h/debian/"%string, 3%Q); Raise]
                 ++ [Ret (Some "http://h/debian/"%string, 2%Q)]) ([], 0)))
        k
      = PyDict.get
          (fst (fold_left Tester.collect
                  [Ret (Some "http://h/debian/"%string, 3%Q); Raise]
                  ([], 0)))
          k.
Proof.
  apply (collect_last_writer_wins
           [Ret (Some "http://h/debian/"%string, 3%Q); Raise] [] 0
           "http://h/debian/" 2%Q).
  - discriminate.
  - reflexivity.
Defined.

(** X9: when no request gets through, a run over any listing finds
    nothing: it prints the number of candidates, [No working mirrors
    found] and [Tested n mirrors, found 0 working], and the bar ends at
    the number of candidates. *)
Theorem main_without_network
    (machine : string) (listing : outcome (response soup))
    (urljoin : string -> string -> outcome string)
    (urlparse : string -> outcome parse_result)
    (session_get : string -> outcome (response (list stream_item)))
    (clock : string -> nat -> Q) (order : Tester.completion)
    (format_2f : Q -> string) :
  (forall url, session_get url = Raise) ->
  exists mirrors,
    Tester.get_mirrors listing = Ret mirrors
    /\ Tester.main machine listing urljoin urlparse session_get clock order
         format_2f
       = Ret (Tester.mkRun
                [ (String "010" "Testing "
                   ++ PyStr.of_nat (List.length mirrors)
                   ++ " mirrors...")%string;
                  String "010" "No working mirrors found";
                  String "010" (Spec.summary (List.length mirrors) 0) ]
                (List.length mirrors) []).
Proof.
  intros Hnet.
  destruct (MainFacts.main_returns machine urljoin urlparse session_get
              clock order format_2f listing)
    as (mirrors & futures & G & S & M).
  exists mirrors. split; [exact G|]. rewrite M.
  assert (fst (Tester.gather order futures) = []) as ->; [|reflexivity].
  unfold Tester.gather. apply SchedulerMore.collect_all_no_result.
  intros f Hf.
  apply (Permutation_in _ (Tester.as_completed_perm order futures)) in Hf.
  destruct (SchedulerMore.submit_all_In machine urljoin urlparse session_get
              clock mirrors futures S _ Hf) as (m & file & _ & ->).
  destruct (SchedulerMore.submit_no_network urljoin urlparse session_get
              clock m file Hnet) as [-> | ->]; [now left | right].
  now exists 0%Q.
Qed.

Lemma main_without_network_witness :
  exists mirrors,
    Tester.get_mirrors (Ret (mkResponse 200 Samples.listing3)) = Ret mirrors
    /\ Tester.main "aarch64" (Ret (mkResponse 200 Samples.listing3))
         UrlLib.urljoin UrlLib.urlparse Samples.no_network
         (fun _ => Samples.half_clock) Samples.reversed Samples.no_format
       = Ret (Tester.mkRun
                [ (String "010" "Testing "
                   ++ PyStr.of_nat (List.length mirrors)
                   ++ " mirrors...")%string;
                  String "010" "No working mirrors found";
                  String "010" (Spec.summary (List.length mirrors) 0) ]
                (List.length mirrors) []).
Proof.
  apply (main_without_network "aarch64"
           (Ret (mkResponse 200 Samples.listing3))
           UrlLib.urljoin UrlLib.urlparse Samples.no_network
           (fun _ => Samples.half_clock) Samples.reversed
           Samples.no_format).
  reflexivity.
Defined.

(* ================================================================== *)
(** * More on the listing, the ranking and the report *)
(* ================================================================== *)

Module ReportMore.

Import PyStr PyStrFacts Tester Spec Body.

Lemma collect_hrefs_spec (rows : soup) :
  forall acc, collect_hrefs rows acc = acc ++ hrefs_of rows.
Proof.
  induction rows as [|row rows IH]; intros acc; simpl.
  - now rewrite app_nil_r.
  - destruct (row_href row) as [h|]; rewrite IH; simpl;
      [now rewrite <- app_assoc | reflexivity].
Qed.

Lemma hrefs_of_length (rows : soup) :
  List.length (hrefs_of rows) <= List.length rows.
Proof.
  induction rows as [|row rows IH]; simpl; [lia|].
  rewrite length_app. destruct (row_href row); simpl; lia.
Qed.

Lemma hrefs_of_In (rows : soup) (h : string) :
  In h (hrefs_of rows) <-> exists row, In row rows /\ row_href row = Some h.
Proof.
  unfold hrefs_of. rewrite in_flat_map. split.
  - intros (row & Hin & Hh). exists row. split; [exact Hin|].
    destruct (row_href row) as [h'|]; [|destruct Hh].
    destruct Hh as [->|[]]. reflexivity.
  - intros (row & Hin & Hh). exists row. split; [exact Hin|].
    rewrite Hh. now left.
Qed.

(** The href of a row: the first anchor of its second cell has it, and it
    is not empty. *)
Lemma row_href_some (row : tr) (h : string) :
  row_href row = Some h <->
  exists c0 cell cs link ls,
    cols row = c0 :: cell :: cs
    /\ anchors cell = link :: ls
    /\ href link = Some h
    /\ h <> ""%string.
Proof.
  unfold row_href, truthy. split.
  - destruct (cols row) as [|c0 [|cell cs]]; try discriminate.
    destruct (anchors cell) as [|link ls] eqn:A; try discriminate.
    destruct (href link) as [h'|] eqn:H; try discriminate.
    destruct (String.eqb_spec h' ""); simpl; try discriminate.
    intros [= <-]. exists c0, cell, cs, link, ls. auto.
  - intros (c0 & cell & cs & link & ls & -> & -> & -> & Hne).
    destruct (String.eqb_spec h ""); [contradiction | reflexivity].
Qed.

(** A speed cannot be below another and both be [v]. *)
Lemma has_speed_apart (v : Q) (x y : string * Q) :
  Qltb (snd x) (snd y) = true ->
  has_speed v x = true -> has_speed v y = false.
Proof.
  unfold has_speed. intros L Hx.
  apply Qltb_lt in L. apply Qeq_bool_iff in Hx.
  destruct (Qeq_bool (snd y) v) eqn:Hy; [|reflexivity].
  apply Qeq_bool_iff in Hy. rewrite Hx, Hy in L.
  now apply Qlt_irrefl in L.
Qed.

Lemma insert_desc_stable (v : Q) (x : string * Q) (l : list (string * Q)) :
  filter (has_speed v) (insert_desc x l) = filter (has_speed v) (x :: l).
Proof.
  induction l as [|y l IH]; [reflexivity|].
  cbn [insert_desc]. destruct (Qltb (snd x) (snd y)) eqn:L; [|reflexivity].
  cbn [filter] in *. rewrite IH.
  destruct (has_speed v x) eqn:Hx; [|reflexivity].
  now rewrite (has_speed_apart v x y L Hx).
Qed.

Lemma sorted_desc_stable (v : Q) (l : list (string * Q)) :
  filter (has_speed v) (sorted_desc l) = filter (has_speed v) l.
Proof.
  induction l as [|x l IH]; [reflexivity|].
  cbn [sorted_desc fold_right]. rewrite insert_desc_stable.
  cbn [filter]. fold (sorted_desc l). now rewrite IH.
Qed.

(** The head of the ranking is an entry that none is faster than. *)
Lemma sorted_mirrors_head (d : PyDict.dict Q) :
  d <> [] ->
  exists fastest rest,
    sorted_mirrors d = fastest :: rest
    /\ In fastest d
    /\ forall e, In e d -> (snd e <= snd fastest)%Q.
Proof.
  intros Hne. unfold sorted_mirrors, PyDict.items.
  pose proof (SortFacts.sorted_desc_perm d) as Hp.
  pose proof (SortFacts.sorted_desc_sorted d) as Hs.
  destruct (sorted_desc d) as [|x xs].
  - apply Permutation_nil in Hp. contradiction.
  - exists x, (firstn 4 xs). split; [reflexivity|]. split.
    + apply (Permutation_in _ Hp). now left.
    + intros e He.
      apply (Permutation_in _ (Permutation_sym Hp)) in He.
      inversion Hs as [|? ? _ Hall]; subst.
      destruct He as [<-|He]; [apply Qle_refl|].
      rewrite Forall_forall in Hall. now apply Hall.
Qed.

End ReportMore.

(** X10: the candidates [get_mirrors] returns are distinct and not empty;
    each is the href of the first anchor of the second cell of a row of
    the listing, every such href that is not empty is among them, and
    they are at most as many as the rows.  [get_mirrors] raises
    nothing. *)
Theorem get_mirrors_candidates (listing : outcome (response soup)) :
  exists mirrors,
    Tester.get_mirrors listing = Ret mirrors
    /\ NoDup mirrors
    /\ (forall m,
          In m mirrors ->
          m <> ""%string
          /\ exists r row c0 cell cs link ls,
              listing = Ret r
              /\ raise_for_status r = Ret tt
              /\ In row (content r)
              /\ cols row = c0 :: cell :: cs
              /\ anchors cell = link :: ls
              /\ href link = Some m)
    /\ (forall r row h,
          listing = Ret r -> raise_for_status r = Ret tt ->
          In row (content r) -> Tester.row_href row = Some h ->
          In h mirrors)
    /\ (forall r, listing = Ret r ->
                  List.length mirrors <= List.length (content r)).
Proof.
  unfold Tester.get_mirrors, Tester.get_mirrors_try.
  destruct listing as [r|].
  2:{ exists []. split; [reflexivity|]. split; [constructor|].
      split; [intros m []|]. split; intros; discriminate. }
  destruct (raise_for_status r) as [[]|] eqn:S.
  2:{ exists []. split; [reflexivity|]. split; [constructor|].
      split; [intros m []|]. split.
      - intros r' row h [= <-] S'. congruence.
      - intros r' _. simpl. lia. }
  eexists. split; [reflexivity|].
  rewrite DictFacts.unique_first_occurrences,
    ReportMore.collect_hrefs_spec.
  cbn [app]. split; [apply DictFacts.first_occurrences_NoDup|].
  split; [|split].
  - intros m Hm.
    apply (proj1 (DictFacts.first_occurrences_In _ _)) in Hm.
    apply (proj1 (ReportMore.hrefs_of_In _ _)) in Hm as (row & Hrow & Hh).
    apply (proj1 (ReportMore.row_href_some _ _)) in Hh
      as (c0 & cell & cs & link & ls & Hc & Ha & Hl & Hne).
    split; [exact Hne|].
    exists r, row, c0, cell, cs, link, ls. auto 10.
  - intros r' row h [= <-] _ Hrow Hh.
    apply DictFacts.first_occurrences_In, ReportMore.hrefs_of_In.
    now exists row.
  - intros r' [= <-].
    etransitivity; [|apply ReportMore.hrefs_of_length].
    apply NoDup_incl_length; [apply DictFacts.first_occurrences_NoDup|].
    intros x Hx.
    now apply (proj1 (DictFacts.first_occurrences_In _ _)) in Hx.
Qed.

(** X11: when there are results, the report is the three heading lines,
    one row for each of the [min 5 k] ranked entries, and the two [deb]
    lines, which name the first ranked entry: an entry of the results
    that none is faster than.  [No working mirrors found] is not
    printed. *)
Theorem report_names_fastest (format_2f : Q -> string) (n_mirrors : nat)
    (arch_results : PyDict.dict Q) :
  arch_results <> [] ->
  exists fastest rest,
    Tester.sorted_mirrors arch_results = fastest :: rest
    /\ In fastest arch_results
    /\ (forall e, In e arch_results -> (snd e <= snd fastest)%Q)
    /\ List.length (fastest :: rest)
       = Nat.min 5 (PyDict.len arch_results)
    /\ Tester.report format_2f n_mirrors arch_results
       = [ String "010" "Top 5 mirrors by Packages.gz download speed:";
           String "010"
             "Mirror                                     Speed (MB/s)";
           PyStr.repeat_char "-" 60 ]
         ++ map (Tester.table_row format_2f) (fastest :: rest)
         ++ [ String "010" "Sources list entries for fastest mirror:";
              ("deb " ++ fst fastest
               ++ " stable main contrib non-free")%string;
              ("deb " ++ fst fastest
               ++ " stable-updates main contrib non-free")%string;
              String "010"
                (Spec.summary n_mirrors (PyDict.len arch_results)) ].
Proof.
  intros Hne.
  destruct (ReportMore.sorted_mirrors_head arch_results Hne)
    as (fastest & rest & Hs & Hin & Hmax).
  exists fastest, rest. repeat split; auto.
  - rewrite <- Hs. unfold Tester.sorted_mirrors, PyDict.len, PyDict.items.
    rewrite length_firstn.
    now rewrite (Permutation_length (SortFacts.sorted_desc_perm arch_results)).
  - unfold Tester.report. rewrite Hs. cbn [app].
    rewrite <- !app_assoc. reflexivity.
Qed.

Lemma report_names_fastest_witness :
  exists fastest rest,
    Tester.sorted_mirrors [("a"%string, 3%Q); ("b"%string, 7%Q)]
    = fastest :: rest
    /\ In fastest [("a"%string, 3%Q); ("b"%string, 7%Q)]
    /\ (forall e, In e [("a"%string, 3%Q); ("b"%string, 7%Q)] ->
                  (snd e <= snd fastest)%Q)
    /\ List.length (fastest :: rest)
       = Nat.min 5 (PyDict.len [("a"%string, 3%Q); ("b"%string, 7%Q)])
    /\ Tester.report Samples.no_format 2
         [("a"%string, 3%Q); ("b"%string, 7%Q)]
       = [ String "010" "Top 5 mirrors by Packages.gz download speed:";
           String "010"
             "Mirror                                     Speed (MB/s)";
           PyStr.repeat_char "-" 60 ]
         ++ map (Tester.table_row Samples.no_format) (fastest :: rest)
         ++ [ String "010" "Sources list entries for fastest mirror:";
              ("deb " ++ fst fastest
               ++ " stable main contrib non-free")%string;
              ("deb " ++ fst fastest
               ++ " stable-updates main contrib non-free")%string;
              String "010"
                (Spec.summary 2
                   (PyDict.len [("a"%string, 3%Q); ("b"%string, 7%Q)])) ].
Proof.
  apply (report_names_fastest Samples.no_format 2
           [("a"%string, 3%Q); ("b"%string, 7%Q)]).
  discriminate.
Defined.

(** X12: the base URL is a prefix of the candidate.  For a candidate
    without [/debian/] it has four [/] fewer than the candidate, and none
    when the candidate has at most four: of [scheme://host/] only the
    text before the first [/] is left. *)
Theorem base_url_prefix (mirror : string) :
  (exists tail, mirror = (Tester.base_url mirror ++ tail)%string)
  /\ String.length (Tester.base_url mirror) <= String.length mirror
  /\ (PyStr.contains "/debian/" mirror = false ->
      PyStr.count "/" (Tester.base_url mirror)
      = PyStr.count "/" mirror - 4
      /\ (PyStr.count "/" mirror <= 4 ->
          PyStr.count "/" (Tester.base_url mirror) = 0)).
Proof.
  assert (exists tail, mirror = (Tester.base_url mirror ++ tail)%string)
    as Hpre.
  { destruct (PyStr.contains "/debian/" mirror) eqn:C.
    - destruct (BaseUrlFacts.base_url_marker mirror C)
        as (pre & post & Hm & _ & Hb).
      exists post. rewrite Hb, PyStrFacts.sapp_assoc. exact Hm.
    - destruct (BaseUrlFacts.base_url_fallback mirror C) as (tail & Hm & _).
      now exists tail. }
  split; [exact Hpre|]. split.
  - destruct Hpre as [tail Hm]. rewrite Hm at 2.
    rewrite PyStrFacts.slength_app. lia.
  - intros C.
    destruct (BaseUrlFacts.base_url_fallback mirror C)
      as (tail & Hm & Hc & _).
    assert (PyStr.count "/" mirror
            = PyStr.count "/" (Tester.base_url mirror)
              + PyStr.count "/" tail) as Hsum.
    { rewrite Hm at 1. apply BaseUrlFacts.count_app. }
    lia.
Qed.

(** X13: the ranking is stable: the entries of one speed stand in the
    ranking in the order in which they entered the results. *)
Theorem sorted_desc_keeps_ties (v : Q) (arch_results : PyDict.dict Q) :
  filter (Body.has_speed v)
    (Tester.sorted_desc (PyDict.items arch_results))
  = filter (Body.has_speed v) (PyDict.items arch_results).
Proof. apply ReportMore.sorted_desc_stable. Qed.

(* ================================================================== *)
(** * The results when the base URLs differ *)
(* ================================================================== *)

Module DistinctFacts.

Import PyDict Tester Body.

Lemma set_new {V : Type} (k : string) (v : V) (d : dict V) :
  ~ In k (keys d) -> set k v d = d ++ [(k, v)].
Proof.
  induction d as [|[k' v'] d IH]; simpl; [reflexivity|].
  intros Hnot. destruct (String.eqb_spec k' k) as [->|Hne].
  - exfalso. apply Hnot. now left.
  - rewrite IH; [reflexivity|]. intros H. apply Hnot. now right.
Qed.

Lemma collect_sample (d : dict Q) (n : nat) (f : future) :
  collect (d, n) f
  = (match sample_of f with
     | e :: _ => set (fst e) (snd e) d
     | [] => d
     end, S n).
Proof.
  destruct f as [[[b|] sp]|]; simpl; try reflexivity.
  destruct (truthy b && Qltb 0 sp); reflexivity.
Qed.

Lemma sample_of_short (f : future) :
  sample_of f = [] \/ exists e, sample_of f = [e].
Proof.
  destruct f as [[[b|] sp]|]; simpl; auto.
  destruct (truthy b && Qltb 0 sp); eauto.
Qed.

(** With base URLs that differ from one another and from those of the
    results so far, the loop appends the samples in the order of the
    futures. *)
Lemma collect_all_distinct (l : list future) :
  forall d n,
    NoDup (keys d ++ map fst (samples l)) ->
    fst (fold_left collect l (d, n)) = d ++ samples l.
Proof.
  induction l as [|f l IH]; intros d n H; cbn [fold_left].
  - simpl. now rewrite app_nil_r.
  - rewrite collect_sample. unfold samples in *. cbn [flat_map] in *.
    destruct (sample_of_short f) as [E|[[b sp] E]]; rewrite E in *.
    + apply IH. exact H.
    + cbn [app map fst snd] in *.
      assert (~ In b (keys d)) as Hnew.
      { intros Hin. apply NoDup_remove_2 in H. apply H.
        apply in_or_app. now left. }
      rewrite (set_new b sp d Hnew), IH.
      * now rewrite <- app_assoc.
      * unfold keys in *. rewrite map_app, <- app_assoc. exact H.
Qed.

End DistinctFacts.

(** X14: when the samples of the futures have base URLs that differ from
    one another, the results are these samples, whatever the order in
    which the futures finish; the number of mirrors found is the number
    of futures with a sample. *)
Theorem gather_distinct_samples (order : Tester.completion)
    (futures : list Tester.future) :
  NoDup (map fst (Body.samples futures)) ->
  Permutation (fst (Tester.gather order futures)) (Body.samples futures)
  /\ fst (Tester.gather order futures)
     = Body.samples (Tester.as_completed order futures)
  /\ PyDict.len (fst (Tester.gather order futures))
     = List.length (Body.samples futures).
Proof.
  intros H.
  assert (Permutation (Body.samples (Tester.as_completed order futures))
            (Body.samples futures)) as P.
  { unfold Body.samples. apply Permutation_flat_map.
    apply Tester.as_completed_perm. }
  assert (fst (Tester.gather order futures)
          = Body.samples (Tester.as_completed order futures)) as E.
  { unfold Tester.gather.
    rewrite DistinctFacts.collect_all_distinct; [reflexivity|].
    cbn [PyDict.keys map app].
    apply (Permutation_NoDup
             (Permutation_map fst (Permutation_sym P)) H). }
  split; [|split].
  - rewrite E. exact P.
  - exact E.
  - unfold PyDict.len. rewrite E. now apply Permutation_length.
Qed.

Lemma gather_distinct_samples_witness :
  Permutation
    (fst (Tester.gather Samples.reversed
            [Ret (Some "http://a/debian/"%string, 3%Q); Raise;
             Ret (Some "http://b/debian/"%string, 7%Q)]))
    (Body.samples
       [Ret (Some "http://a/debian/"%string, 3%Q); Raise;
        Ret (Some "http://b/debian/"%string, 7%Q)])
  /\ fst (Tester.gather Samples.reversed
            [Ret (Some "http://a/debian/"%string, 3%Q); Raise;
             Ret (Some "http://b/debian/"%string, 7%Q)])
     = Body.samples
         (Tester.as_completed Samples.reversed
            [Ret (Some "http://a/debian/"%string, 3%Q); Raise;
             Ret (Some "http://b/debian/"%string, 7%Q)])
  /\ PyDict.len
       (fst (Tester.gather Samples.reversed
               [Ret (Some "http://a/debian/"%string, 3%Q); Raise;
                Ret (Some "http://b/debian/"%string, 7%Q)]))
     = List.length
         (Body.samples
            [Ret (Some "http://a/debian/"%string, 3%Q); Raise;
             Ret (Some "http://b/debian/"%string, 7%Q)]).
Proof.
  apply (gather_distinct_samples Samples.reversed
           [Ret (Some "http://a/debian/"%string, 3%Q); Raise;
            Ret (Some "http://b/debian/"%string, 7%Q)]).
  repeat constructor; simpl; intuition discriminate.
Defined.

(** X15: a row of the table is the base URL padded to 40 characters, a
    blank, and the speed padded to 8: it is 49 characters wide when the
    base URL has at most 40 characters and the speed at most 8, and
    wider by the excess when one is longer. *)
Theorem table_row_width (format_2f : Q -> string) (e : string * Q) :
  String.length (Tester.table_row format_2f e)
  = Nat.max 40 (String.length (fst e)) + 1
    + Nat.max 8 (String.length (format_2f (snd e)))
  /\ PyStr.startswith (Tester.table_row format_2f e) (fst e) = true.
Proof.
  assert (forall n, String.length (PyStr.spaces n) = n) as Hsp
    by (induction n; simpl; auto).
  unfold Tester.table_row, PyStr.ljust, PyStr.rjust. split.
  - rewrite !PyStrFacts.slength_app, !Hsp. cbn [String.length]. lia.
  - apply PyStrFacts.startswith_spec.
    rewrite PyStrFacts.sapp_assoc. eauto.
Qed.
